(** * A shallow embedding of the Poloniex API client (package [poloniex])

    The package is a thin layer over a [client] value: every exported method
    builds a request, hands it to one of the client's methods ([do],
    [doCommand], [wsConnect], [wsReset], [close]) and post-processes what
    comes back.  The exported methods are embedded as interaction trees over
    the events [clientE], one event per client method, so that the requests a
    method issues are part of its meaning and the endless [for] loops of the
    subscription calls are ordinary programs.  A program is run against a
    client by [run], with fuel.

    The client itself and the wire types other than [OrderBook] and
    [OpenOrder] are not part of the files embedded here.  The types, the
    decoders of [encoding/json] and the case tables of [unicode] are
    parameters ([Externals], [Json]); [strings.ToUpper] is written out after
    the library; the client is modelled from the specification in
    [SpecClient]. *)

From Stdlib Require Import ZArith NArith List Lia Ascii String Sorted.
From stdpp Require Import base option list strings gmap pretty.
From ITree Require Import ITree ITreeFacts.
From Paco Require Import paco.

Local Open Scope string_scope.
Local Open Scope list_scope.
Local Open Scope Z_scope.

(* ================================================================== *)
(** * Go values *)

(** A Go [error]: a value with a message.  [errors_New] is [errors.New]. *)
Variant error : Type := errors_New (text : string).

Definition error_text (e : error) : string := let 'errors_New s := e in s.

(** A nilable [error] result is an [option error]; [None] is [nil]. *)
Definition is_nil (e : option error) : bool :=
  match e with None => true | Some _ => false end.

(** [[]byte]. *)
Definition bytes : Type := list Byte.byte.

(** A channel is a shared object: the program holds its identity, the
    contents live in the client's world.  The element type is a phantom. *)
Record chan (T : Type) : Type := Chan { chan_id : nat }.
Arguments Chan {T} _.
Arguments chan_id {T} _.

(** Zero values of Go types. *)
Class Zero (T : Type) : Type := zero : T.

#[global] Instance zero_gmap {V : Type} : Zero (gmap string V) := (∅ : gmap string V).
#[global] Instance zero_list {A : Type} : Zero (list A) := @nil A.
#[global] Instance zero_Z : Zero Z := 0%Z.
#[global] Instance zero_string : Zero string := EmptyString.

(** [json.Unmarshal(data, &v)]: the target is read and written, and an error
    may come with a partly written target. *)
Class Unmarshal (T : Type) : Type := json_Unmarshal : bytes → T → T * option error.

(* ------------------------------------------------------------------ *)
(** ** [strings.ToUpper] and [fmt.Sprintf] *)

Definition is_lower (c : ascii) : bool :=
  (97 <=? N_of_ascii c)%N && (N_of_ascii c <=? 122)%N.

(** [c -= 'a' - 'A'] on a lower-case ASCII letter. *)
Definition upper_byte (c : ascii) : ascii :=
  if is_lower c then ascii_of_N (N_of_ascii c - 32) else c.

(** [c < utf8.RuneSelf]. *)
Definition is_ascii_byte (c : ascii) : bool := (N_of_ascii c <? 128)%N.

Fixpoint all_bytes (p : ascii → bool) (s : string) : bool :=
  match s with
  | EmptyString => true
  | String c s' => p c && all_bytes p s'
  end.

Fixpoint map_bytes (f : ascii → ascii) (s : string) : string :=
  match s with
  | EmptyString => EmptyString
  | String c s' => String (f c) (map_bytes f s')
  end.

(** The place of a byte in a string. *)
Fixpoint place (c : ascii) (s : string) : option nat :=
  match s with
  | EmptyString => None
  | String d s' => if Ascii.eqb c d then Some 0%nat else S <$> place c s'
  end.

(** The upper-case form of a byte, read off the alphabet: the capital at
    the place the byte has among the small letters, the byte itself when it
    is not one of them.  This is what upper-casing is to mean for ASCII; it
    is not how the library computes it ([upper_byte]). *)
Definition capital (c : ascii) : ascii :=
  match place c "abcdefghijklmnopqrstuvwxyz" with
  | Some i => default c (String.get i "ABCDEFGHIJKLMNOPQRSTUVWXYZ")
  | None => c
  end.

(** Two bytes are the same letter in possibly different cases. *)
Definition same_letter (c d : ascii) : Prop :=
  c = d ∨ (is_lower c = true ∧ d = upper_byte c) ∨ (is_lower d = true ∧ c = upper_byte d).

(** Two strings that differ only in the case of their ASCII letters. *)
Inductive case_variant : string → string → Prop :=
| case_variant_nil : case_variant EmptyString EmptyString
| case_variant_cons c d s t :
    same_letter c d → case_variant s t → case_variant (String c s) (String d t).

(** [utf8.RuneError]. *)
Definition RuneError : Z := 65533.

(** [s[i]] as a number, when [i < len(s)]. *)
Definition byte_at (i : nat) (s : string) : option Z :=
  (λ c, Z.of_N (N_of_ascii c)) <$> String.get i s.

(** [s[n:]]. *)
Fixpoint skip (n : nat) (s : string) : string :=
  match n, s with
  | S n', String _ s' => skip n' s'
  | _, _ => s
  end.

(** The byte is there and lies in [lo, hi]. *)
Definition continues (lo hi : Z) (b : option Z) : bool :=
  match b with
  | Some x => (lo <=? x) && (x <=? hi)
  | None => false
  end.

(** [utf8.DecodeRuneInString]: the first rune of [s] and its width. *)
Definition DecodeRuneInString (s : string) : Z * nat :=
  match byte_at 0 s with
  | None => (RuneError, 0%nat)
  | Some s0 =>
      if s0 <? 128 then (s0, 1%nat)
      else if (s0 <? 194) || (244 <? s0) then (RuneError, 1%nat)
      else
        let sz := if s0 <? 224 then 2 else if s0 <? 240 then 3 else 4 in
        let lo := if s0 =? 224 then 160 else if s0 =? 240 then 144 else 128 in
        let hi := if s0 =? 237 then 159 else if s0 =? 244 then 143 else 191 in
        let s1 := byte_at 1 s in
        let s2 := byte_at 2 s in
        let s3 := byte_at 3 s in
        if negb (continues lo hi s1) then (RuneError, 1%nat)
        else if sz <=? 2 then
          (Z.lor (Z.shiftl (Z.land s0 31) 6) (Z.land (default 0 s1) 63), 2%nat)
        else if negb (continues 128 191 s2) then (RuneError, 1%nat)
        else if sz <=? 3 then
          (Z.lor (Z.shiftl (Z.land s0 15) 12)
             (Z.lor (Z.shiftl (Z.land (default 0 s1) 63) 6) (Z.land (default 0 s2) 63)),
           3%nat)
        else if negb (continues 128 191 s3) then (RuneError, 1%nat)
        else
          (Z.lor (Z.shiftl (Z.land s0 7) 18)
             (Z.lor (Z.shiftl (Z.land (default 0 s1) 63) 12)
                (Z.lor (Z.shiftl (Z.land (default 0 s2) 63) 6) (Z.land (default 0 s3) 63))),
           4%nat)
  end.

(** [for _, c := range s]: the runes of [s], at most [fuel] of them. *)
Fixpoint runes_upto (fuel : nat) (s : string) : list Z :=
  match fuel with
  | O => []
  | S fuel' =>
      match s with
      | EmptyString => []
      | String _ _ =>
          let '(r, width) := DecodeRuneInString s in
          r :: runes_upto fuel' (skip width s)
      end
  end.

Definition runes (s : string) : list Z := runes_upto (String.length s) s.

Definition byte_of (x : Z) : ascii := ascii_of_N (Z.to_N (x mod 256)).

(** [utf8.EncodeRune], on a rune that is not negative. *)
Definition EncodeRune (r : Z) : string :=
  if r <=? 127 then String (byte_of r) ""
  else if r <=? 2047 then
    String (byte_of (Z.lor 192 (Z.shiftr r 6)))
      (String (byte_of (Z.lor 128 (Z.land r 63))) "")
  else
    let r := if (1114111 <? r) || ((55296 <=? r) && (r <=? 57343)) then RuneError else r in
    if r <=? 65535 then
      String (byte_of (Z.lor 224 (Z.shiftr r 12)))
        (String (byte_of (Z.lor 128 (Z.land (Z.shiftr r 6) 63)))
           (String (byte_of (Z.lor 128 (Z.land r 63))) ""))
    else
      String (byte_of (Z.lor 240 (Z.shiftr r 18)))
        (String (byte_of (Z.lor 128 (Z.land (Z.shiftr r 12) 63)))
           (String (byte_of (Z.lor 128 (Z.land (Z.shiftr r 6) 63)))
              (String (byte_of (Z.lor 128 (Z.land r 63))) ""))).

(** [strings.Map]: every rune of [s] is mapped and written back; a negative
    result drops the rune. *)
Definition strings_Map (mapping : Z → Z) (s : string) : string :=
  foldr (λ r out, (if 0 <=? r then EncodeRune r else "") +:+ out) ""
    (List.map mapping (runes s)).

(** The integers of the package ([int], [int64], [uint32]) are compared
    with constants and printed, never added or multiplied: they are [Z] and
    [N] with no wrap-around to write out. *)

(** [%d] of [fmt.Sprintf] on an integer. *)
Definition fmt_d (z : Z) : string := pretty z.

(** [strconv.FormatUint(uint64(n), 10)] on a [uint32]. *)
Definition FormatUint (n : N) : string := pretty n.

(* ================================================================== *)
(** * The wire types of [order.go] and the parameters *)

(** What the embedded files use and do not declare: the wire types declared
    in other files of the package, [decimal.Decimal] and [float64], the
    formatting of a [float64], and the case tables of [unicode]. *)
Class Externals : Type := {
  Decimal : Type;
  float64 : Type;
  FormatFloat : float64 → string;
  Ticker : Type;
  VolumeCollection : Type;
  CurrencyTable : Type;
  CandleStick : Type;
  Balance : Type;
  Trade : Type;
  Deposit : Type;
  Withdrawal : Type;
  TradeOrder : Type;
  Fees : Type;
  MarketUpd : Type;
  TickerUpd : Type;
  zero_VolumeCollection :: Zero VolumeCollection;
  zero_CurrencyTable :: Zero CurrencyTable;
  zero_TradeOrder :: Zero TradeOrder;
  zero_Fees :: Zero Fees;
  (** [unicode.To(unicode.UpperCase, r)]: the case tables of [unicode]. *)
  unicode_To_UpperCase : Z → Z;
}.

(** [unicode.ToUpper]. *)
Definition unicode_ToUpper `{Externals} (r : Z) : Z :=
  if r <=? 127 then
    if (97 <=? r) && (r <=? 122) then r - 32 else r
  else unicode_To_UpperCase r.

(** [strings.ToUpper]: a string of ASCII bytes is returned as it is when it
    has no lower-case letter and mapped byte by byte otherwise; any other
    string goes through [strings.Map]. *)
Definition ToUpper `{Externals} (s : string) : string :=
  if all_bytes is_ascii_byte s then
    if all_bytes (λ c, negb (is_lower c)) s then s else map_bytes upper_byte s
  else strings_Map unicode_ToUpper s.

(** Bytes at the same place of two case variants: the same byte, or two
    ASCII bytes that [unicode.ToUpper] maps to the same rune. *)
Definition byte_variant `{Externals} (x y : option Z) : Prop :=
  match x, y with
  | None, None => True
  | Some x, Some y =>
      x = y ∨ (x < 128 ∧ y < 128 ∧ unicode_ToUpper x = unicode_ToUpper y)
  | _, _ => False
  end.

Section WireTypes.
Context `{Externals}.

Record OrderBook : Type := {
  Asks : list (list Decimal);
  Bids : list (list Decimal);
  IsFrozen : Z;
  Error : string;
  Seq : Z;
}.

Record OpenOrder : Type := {
  OrderNumber : Z;
  Type_ : string;
  Rate : float64;
  Amount : float64;
  Total : float64;
}.

(** [Currencies]: the embedded code touches its field [Pair] only. *)
Record Currencies : Type := { Pair : CurrencyTable }.

Record responseDepositsWithdrawals : Type := {
  Deposits : list Deposit;
  Withdrawals : list Withdrawal;
}.
End WireTypes.

#[global] Instance zero_OrderBook `{Externals} : Zero OrderBook :=
  {| Asks := []; Bids := []; IsFrozen := 0; Error := ""; Seq := 0 |}.
#[global] Instance zero_Currencies `{Externals} : Zero Currencies :=
  {| Pair := zero |}.
#[global] Instance zero_responseDepositsWithdrawals `{Externals} :
  Zero responseDepositsWithdrawals := {| Deposits := []; Withdrawals := [] |}.

(** The decoders of [encoding/json], one per target type of the package. *)
Class Json `{Externals} : Type := {
  json_tickers :: Unmarshal (gmap string Ticker);
  json_volumes :: Unmarshal VolumeCollection;
  json_currencies :: Unmarshal CurrencyTable;
  json_orderbook :: Unmarshal OrderBook;
  json_orderbooks :: Unmarshal (gmap string OrderBook);
  json_candles :: Unmarshal (list CandleStick);
  json_balances :: Unmarshal (gmap string Balance);
  json_trades :: Unmarshal (list Trade);
  json_trades_all :: Unmarshal (gmap string (list Trade));
  json_deposits :: Unmarshal responseDepositsWithdrawals;
  json_tradeorder :: Unmarshal TradeOrder;
  json_openorders :: Unmarshal (list OpenOrder);
  json_openorders_all :: Unmarshal (gmap string (list OpenOrder));
  json_fees :: Unmarshal Fees;
}.

(* ================================================================== *)
(** * The client's methods as events *)

(** The handler a subscription registers: a closure over the caller's
    updates channel.  The two makers are declared in another file of the
    package; a handler is kept as the maker that built it and the channel
    it was built over. *)
Variant Handler `{Externals} : Type :=
| makeOBookSubHandler (updatesCh : chan MarketUpd)
| makeTickerSubHandler (updatesCh : chan TickerUpd).

(** One constructor per method of [client] the package calls, with the
    method's arguments; the index is the method's result. *)
Variant clientE `{Externals} : Type → Type :=
| client_do (method resource : string) (payload : option (gmap string string))
            (authNeeded : bool) : clientE (bytes * option error)
| client_doCommand (command : string) (payload : option (gmap string string)) :
    clientE (bytes * option error)
| client_wsConnect (topic : string) (handler : Handler) (stopCh : chan bool) :
    clientE (bool * option error)
| client_wsReset : clientE (option error)
| client_close : clientE (option error).

#[global] Instance itree_ret {E : Type → Type} : MRet (itree E) := λ A x, Ret x.
#[global] Instance itree_bind {E : Type → Type} : MBind (itree E) :=
  λ A B k t, ITree.bind t k.

(** Calling a method of the client. *)
Definition call `{Externals} {X : Type} (e : clientE X) : itree clientE X :=
  ITree.trigger e.

(** [time.Time], read through [Unix()] only. *)
Record Time : Type := { Unix : Z }.

(* ================================================================== *)
(** * The exported methods of [Poloniex] *)

Section Poloniex.
Context `{!Externals, !Json}.

(** GetTickers is used to get the ticker for all markets. *)
Definition GetTickers : itree clientE (gmap string Ticker * option error) :=
  '(r, err) ← call (client_do "GET" "public?command=returnTicker" None false);
  if negb (is_nil err) then mret (zero, err) else
  let '(tickers, err) := json_Unmarshal r (zero : gmap string Ticker) in
  if negb (is_nil err) then mret (tickers, err) else
  mret (tickers, err).

(** GetVolumes is used to get the volume for all markets. *)
Definition GetVolumes : itree clientE (VolumeCollection * option error) :=
  '(r, err) ← call (client_do "GET" "public?command=return24hVolume" None false);
  if negb (is_nil err) then mret (zero, err) else
  let '(vc, err) := json_Unmarshal r (zero : VolumeCollection) in
  if negb (is_nil err) then mret (vc, err) else
  mret (vc, err).

Definition GetCurrencies : itree clientE (Currencies * option error) :=
  '(r, err) ← call (client_do "GET" "public?command=returnCurrencies" None false);
  if negb (is_nil err) then mret (zero, err) else
  let '(table, err) := json_Unmarshal r (Pair zero) in
  if negb (is_nil err) then mret ({| Pair := table |}, err) else
  mret ({| Pair := table |}, err).

(** GetOrderBook is used to get retrieve the orderbook for a given market.
    market: a string literal for the market (ex: BTC_NXT).
    cat: bid, ask or both to identify the type of orderbook to return.
    depth: how deep of an order book to retrieve. *)
Definition GetOrderBook (market cat : string) (depth : Z) :
    itree clientE (OrderBook * option error) :=
  (* not implemented *)
  let cat :=
    if bool_decide (cat ≠ "bid") && bool_decide (cat ≠ "ask") && bool_decide (cat ≠ "both")
    then "both" else cat in
  let depth := if 100 <? depth then 100 else depth in
  let depth := if depth <? 1 then 1 else depth in
  '(r, err) ← call (client_do "GET"
      ("public?command=returnOrderBook&currencyPair=" +:+ ToUpper market
         +:+ "&depth=" +:+ fmt_d depth) None false);
  if negb (is_nil err) then mret (zero, err) else
  let '(orderBook, err) := json_Unmarshal r (zero : OrderBook) in
  if negb (is_nil err) then mret (orderBook, err) else
  if bool_decide (Error orderBook ≠ "") then
    mret (orderBook, Some (errors_New (Error orderBook)))
  else mret (orderBook, err).

(** GetAllOrderBook is used to get retrieve the orderbook for all markets. *)
Definition GetAllOrderBook (cat : string) (depth : Z) :
    itree clientE (gmap string OrderBook * option error) :=
  (* not implemented *)
  let cat :=
    if bool_decide (cat ≠ "bid") && bool_decide (cat ≠ "ask") && bool_decide (cat ≠ "both")
    then "both" else cat in
  let depth := if 100 <? depth then 100 else depth in
  let depth := if depth <? 1 then 1 else depth in
  '(r, err) ← call (client_do "GET"
      ("public?command=returnOrderBook&currencyPair=all&depth=" +:+ fmt_d depth)
      None false);
  if negb (is_nil err) then mret (zero, err) else
  let '(orderBook, err) := json_Unmarshal r (zero : gmap string OrderBook) in
  if negb (is_nil err) then mret (orderBook, err) else
  mret (orderBook, err).

(** Returns candlestick chart data. *)
Definition ChartData (currencyPair : string) (period : Z) (start end_ : Time) :
    itree clientE (list CandleStick * option error) :=
  '(r, err) ← call (client_do "GET"
      ("public?command=returnChartData&currencyPair=" +:+ ToUpper currencyPair
         +:+ "&period=" +:+ fmt_d period
         +:+ "&start=" +:+ fmt_d (Unix start)
         +:+ "&end=" +:+ fmt_d (Unix end_)) None false);
  if negb (is_nil err) then mret (zero, err) else
  let '(candles, err) := json_Unmarshal r (zero : list CandleStick) in
  if negb (is_nil err) then mret (candles, err) else
  mret (candles, err).

(** One turn of a subscription's [for] loop: a connect cycle, then
    [return err] ([inr]) or the next turn ([inl]). *)
Definition subscribe_turn (topic : string) (handler : Handler) (stopCh : chan bool)
    (_ : unit) : itree clientE (unit + option error) :=
  '(cont, err) ← call (client_wsConnect topic handler stopCh);
  if negb cont then mret (inr err) else mret (inl tt).

(** SubscribeOrderBook subscribes for trades and order book updates.
    stopCh: close it or send 'true' to stop subscribtion, send 'false' to
    reconnect. *)
Definition SubscribeOrderBook (symbol : string) (updatesCh : chan MarketUpd)
    (stopCh : chan bool) : itree clientE (option error) :=
  ITree.iter (subscribe_turn symbol (makeOBookSubHandler updatesCh) stopCh) tt.

(** UnsubscribeAll cancels all active subscriptions. *)
Definition UnsubscribeAll : itree clientE (option error) := call client_wsReset.

(** Close closes ws connections. *)
Definition Close : itree clientE (option error) := call client_close.

(** SubscribeTicker subscribes for ticker. *)
Definition SubscribeTicker (updatesCh : chan TickerUpd) (stopCh : chan bool) :
    itree clientE (option error) :=
  ITree.iter (subscribe_turn "ticker" (makeTickerSubHandler updatesCh) stopCh) tt.

Definition GetBalances : itree clientE (gmap string Balance * option error) :=
  let balances : gmap string Balance := ∅ in
  '(r, err) ← call (client_doCommand "returnCompleteBalances" None);
  if negb (is_nil err) then mret (balances, err) else
  let '(balances, err) := json_Unmarshal r balances in
  if negb (is_nil err) then mret (balances, err) else
  mret (balances, err).

Definition GetTradeHistory (pair : string) (start : N) :
    itree clientE (gmap string (list Trade) * option error) :=
  let trades : gmap string (list Trade) := ∅ in
  '(r, err) ← call (client_doCommand "returnTradeHistory"
      (Some {[ "currencyPair" := pair; "start" := FormatUint start ]}));
  if negb (is_nil err) then mret (trades, err) else
  if bool_decide (pair = "all") then
    let '(trades, err) := json_Unmarshal r trades in
    if negb (is_nil err) then mret (trades, err) else
    mret (trades, err)
  else
    let '(pairTrades, err) := json_Unmarshal r (zero : list Trade) in
    if negb (is_nil err) then mret (trades, err) else
    let trades := <[ pair := pairTrades ]> trades in
    mret (trades, err).

Definition GetDepositsWithdrawals (start end_ : N) :
    itree clientE (list Deposit * list Withdrawal * option error) :=
  let deposits : list Deposit := [] in
  let withdrawals : list Withdrawal := [] in
  '(r, err) ← call (client_doCommand "returnDepositsWithdrawals"
      (Some {[ "start" := FormatUint start; "end" := FormatUint end_ ]}));
  if negb (is_nil err) then mret (deposits, withdrawals, err) else
  let '(response, err) := json_Unmarshal r (zero : responseDepositsWithdrawals) in
  if negb (is_nil err) then mret (deposits, withdrawals, err) else
  mret (Deposits response, Withdrawals response, None).

Definition Buy (pair : string) (rate amount : float64) (tradeType : string) :
    itree clientE (TradeOrder * option error) :=
  let reqParams : gmap string string :=
    {[ "currencyPair" := pair; "rate" := FormatFloat rate;
       "amount" := FormatFloat amount ]} in
  let reqParams :=
    if bool_decide (tradeType ≠ "") then <[ tradeType := "1" ]> reqParams
    else reqParams in
  '(r, err) ← call (client_doCommand "buy" (Some reqParams));
  if negb (is_nil err) then mret (zero, err) else
  let '(orderResponse, err) := json_Unmarshal r (zero : TradeOrder) in
  if negb (is_nil err) then mret (zero, err) else
  mret (orderResponse, None).

Definition Sell (pair : string) (rate amount : float64) (tradeType : string) :
    itree clientE (TradeOrder * option error) :=
  let reqParams : gmap string string :=
    {[ "currencyPair" := pair; "rate" := FormatFloat rate;
       "amount" := FormatFloat amount ]} in
  let reqParams :=
    if bool_decide (tradeType ≠ "") then <[ tradeType := "1" ]> reqParams
    else reqParams in
  '(r, err) ← call (client_doCommand "sell" (Some reqParams));
  if negb (is_nil err) then mret (zero, err) else
  let '(orderResponse, err) := json_Unmarshal r (zero : TradeOrder) in
  if negb (is_nil err) then mret (zero, err) else
  mret (orderResponse, None).

Definition GetOpenOrders (pair : string) :
    itree clientE (gmap string (list OpenOrder) * option error) :=
  let openOrders : gmap string (list OpenOrder) := ∅ in
  '(r, err) ← call (client_doCommand "returnOpenOrders"
      (Some {[ "currencyPair" := pair ]}));
  if negb (is_nil err) then mret (openOrders, err) else
  if bool_decide (pair = "all") then
    let '(openOrders, err) := json_Unmarshal r openOrders in
    if negb (is_nil err) then mret (openOrders, err) else
    mret (openOrders, err)
  else
    let '(onePairOrders, err) := json_Unmarshal r (zero : list OpenOrder) in
    if negb (is_nil err) then mret (openOrders, err) else
    let openOrders := <[ pair := onePairOrders ]> openOrders in
    mret (openOrders, err).

Definition GetFees : itree clientE (Fees * option error) :=
  let reqParams : gmap string string := ∅ in
  '(r, err) ← call (client_doCommand "returnFeeInfo" (Some reqParams));
  if negb (is_nil err) then mret (zero, err) else
  let '(orderResponse, err) := json_Unmarshal r (zero : Fees) in
  if negb (is_nil err) then mret (zero, err) else
  mret (orderResponse, None).
End Poloniex.

(* ================================================================== *)
(** * Running a program against a client *)

(** A client gives each method its effect on a world [W]; [None] is a call
    that never returns (a read that blocks for ever). *)
Definition Client `{Externals} (W : Type) : Type :=
  ∀ X : Type, clientE X → W → option (X * W).

(** [run c fuel t w]: the result of [t] and the world it leaves, when [t]
    returns within [fuel] steps (method calls and loop turns). *)
Fixpoint run `{Externals} {W R : Type} (c : Client W) (fuel : nat)
    (t : itree clientE R) (w : W) {struct fuel} : option (R * W) :=
  match observe t with
  | RetF r => Some (r, w)
  | TauF t' =>
      match fuel with
      | O => None
      | S fuel' => run c fuel' t' w
      end
  | VisF e k =>
      match fuel with
      | O => None
      | S fuel' =>
          match c _ e w with
          | None => None
          | Some (x, w') => run c fuel' (k x) w'
          end
      end
  end.

(** [calls_once t e]: the program [t] calls the client once, with [e], and
    returns on whatever comes back. *)
Definition calls_once `{Externals} {R X : Type} (t : itree clientE R) (e : clientE X) : Prop :=
  ∃ k : X → itree clientE R, t ≅ Vis e k ∧ ∀ x, ∃ r, k x ≅ Ret r.

(** An anonymous [GET] of the public endpoint: no payload, no credentials,
    and the path [public?command=<name><params>]. *)
Definition public_GET `{Externals} (name params : string) : clientE (bytes * option error) :=
  client_do "GET" ("public?command=" +:+ name +:+ params) None false.

(** [depth] brought into the window from 1 to 100. *)
Definition clamp_1_100 (depth : Z) : Z := Z.max 1 (Z.min depth 100).

(** The world after [n] connect cycles that all asked to continue. *)
Fixpoint after_cycles `{Externals} {W : Type} (c : Client W) (topic : string)
    (handler : Handler) (stopCh : chan bool) (n : nat) (w : W) : option W :=
  match n with
  | O => Some w
  | S n' =>
      match c _ (client_wsConnect topic handler stopCh) w with
      | Some ((true, _), w') => after_cycles c topic handler stopCh n' w'
      | _ => None
      end
  end.

(** The calls that go through the Command Dispatcher. *)
Variant SignedCall `{Externals} : Type :=
| CallGetBalances
| CallGetTradeHistory (pair : string) (start : N)
| CallGetDepositsWithdrawals (start end_ : N)
| CallBuy (pair : string) (rate amount : float64) (tradeType : string)
| CallSell (pair : string) (rate amount : float64) (tradeType : string)
| CallGetOpenOrders (pair : string)
| CallGetFees.

(** A program with its result type. *)
Record Routine `{Externals} : Type := { result : Type; code : itree clientE result }.

Definition program_of `{!Externals, !Json} (sc : SignedCall) : Routine :=
  match sc with
  | CallGetBalances => {| code := GetBalances |}
  | CallGetTradeHistory p start => {| code := GetTradeHistory p start |}
  | CallGetDepositsWithdrawals start end_ => {| code := GetDepositsWithdrawals start end_ |}
  | CallBuy p rate amount tradeType => {| code := Buy p rate amount tradeType |}
  | CallSell p rate amount tradeType => {| code := Sell p rate amount tradeType |}
  | CallGetOpenOrders p => {| code := GetOpenOrders p |}
  | CallGetFees => {| code := GetFees |}
  end.

(** One caller issuing the calls one after the other, each run to its
    return with [fuel] steps; the world the last one leaves. *)
Fixpoint run_calls `{!Externals, !Json} {W : Type} (c : Client W) (fuel : nat)
    (calls : list SignedCall) (w : W) : option W :=
  match calls with
  | [] => Some w
  | sc :: rest =>
      match run c fuel (code (program_of sc)) w with
      | Some (_, w') => run_calls c fuel rest w'
      | None => None
      end
  end.

(* ================================================================== *)
(** * The client, from the specification *)

Module SpecClient.
Section Model.
Context `{!Externals}.

(** Modelled from the spec: the serialisation of a request body, the
    Signer's keyed hash (4.2), the error field of a response envelope
    (4.3, step 5) and the decoding of a frame into an update (4.5) are
    missing from the embedded files; they are parameters of the model. *)
Class Wire : Type := {
  form_encode : gmap string string → bytes;
  sign : string → bytes → bytes;
  envelope_error : bytes → option string;
  decode_market : bytes → option MarketUpd;
  decode_ticker : bytes → option TickerUpd;
}.
Context `{!Wire}.

(** Modelled from the spec: Credentials (section 3). *)
Record Credentials : Type := { apiKey : string; apiSecret : string }.

(** Modelled from the spec: Signed Request (section 3), with the body,
    key and signature the Dispatcher attaches to it. *)
Record SignedRequest : Type := {
  sr_command : string;
  sr_params : gmap string string;
  sr_nonce : Z;
  sr_body : bytes;
  sr_key : string;
  sr_signature : bytes;
}.

(** Modelled from the spec: a request on the wire, plain (section 6) or
    signed. *)
Variant Sent : Type :=
| SentPlain (method resource : string) (payload : option (gmap string string))
            (authNeeded : bool)
| SentSigned (req : SignedRequest).

(** Modelled from the spec: the HTTP side of the client (sections 2 and 3):
    credentials, the Nonce Source's counter, the counterparty's answer to
    the n-th request, and the requests put on the wire so far, oldest
    first. *)
Record Http : Type := {
  credentials : Credentials;
  nonce : Z;
  transport : nat → bytes * option error;
  sent : list Sent;
}.

(** Modelled from the spec: what reaches a subscription while it waits
    (section 5): a frame, the loss of the socket, or the caller acting on a
    control channel. *)
Variant Event : Type :=
| Frame (topic : string) (data : bytes)
| SocketDown (e : error)
| Signal (ch : chan bool) (v : bool)
| SignalClose (ch : chan bool).

(** Modelled from the spec: a control signal (section 3), as the channel
    the package takes: the values sent and not yet received, and whether it
    was closed. *)
Record Control : Type := { pending : list bool; closed : bool }.

(** Modelled from the spec: the streaming side of the client (sections 3
    and 5): the outcome of the n-th connection attempt ([None]: connected
    and acknowledged), the attempts made, whether the shared Stream
    Connection is up, the Topic Router's table, the events still to come,
    which of the two a turn of the read loop looks at first when [n] events
    are still to come (the socket, or the control signal), the control
    channels and the updates delivered to the callers' channels (oldest
    first). *)
Record Stream : Type := {
  dial : nat → option error;
  dialed : nat;
  connected : bool;
  router : gmap string Handler;
  inbound : list Event;
  socket_first : nat → bool;
  control : gmap nat Control;
  market_updates : gmap nat (list MarketUpd);
  ticker_updates : gmap nat (list TickerUpd);
}.

Definition World : Type := Http * Stream.

(* ---------------------------------------------------------------- *)
(** ** Nonce Source and Command Dispatcher *)

(** [math.MinInt64] and [math.MaxInt64]. *)
Definition MinInt64 : Z := -9223372036854775808.

(** The value of an [int64] after an operation whose exact result is [z]:
    the result wraps around. *)
Definition wrap64 (z : Z) : Z := (z - MinInt64) mod 2 ^ 64 + MinInt64.

(** Modelled from the spec: the Nonce Source (4.1), [next() -> integer],
    an increment of the client's counter under mutual exclusion.  The
    counter has 64 bits (section 3), an [int64]: the increment wraps around
    at [MaxInt64]. *)
Definition next (h : Http) : Z * Http :=
  let n := wrap64 (nonce h + 1) in
  (n, {| credentials := credentials h; nonce := n;
         transport := transport h; sent := sent h |}).

Definition put_on_wire (s : Sent) (h : Http) : (bytes * option error) * Http :=
  (transport h (length (sent h)),
   {| credentials := credentials h; nonce := nonce h;
      transport := transport h; sent := sent h ++ [s] |}).

(** Modelled from the spec: the public REST call (section 6): the request
    goes out as it is and the body comes back undecoded. *)
Definition do (method resource : string) (payload : option (gmap string string))
    (authNeeded : bool) (h : Http) : (bytes * option error) * Http :=
  put_on_wire (SentPlain method resource payload authNeeded) h.

(** Modelled from the spec: the Command Dispatcher (4.3):
    1. obtain the next nonce; 2. build the body from the command, the
    parameters and the nonce; 3. sign the serialised body, attach key and
    signature; 4. POST, a transport failure is returned as it is; 5. an
    envelope with an error field becomes an error with that message. *)
Definition doCommand (command : string) (payload : option (gmap string string))
    (h : Http) : (bytes * option error) * Http :=
  let '(n, h) := next h in
  let params := default ∅ payload in
  let body := form_encode (<[ "nonce" := fmt_d n ]> (<[ "command" := command ]> params)) in
  let req := {| sr_command := command; sr_params := params; sr_nonce := n;
                sr_body := body; sr_key := apiKey (credentials h);
                sr_signature := sign (apiSecret (credentials h)) body |} in
  let '((r, err), h) := put_on_wire (SentSigned req) h in
  if negb (is_nil err) then ((r, err), h) else
  match envelope_error r with
  | Some msg => ((r, Some (errors_New msg)), h)
  | None => ((r, None), h)
  end.

(* ---------------------------------------------------------------- *)
(** ** Stream Connection, Topic Router and Subscription Controller *)

Definition with_control (f : gmap nat Control → gmap nat Control) (s : Stream) : Stream :=
  {| dial := dial s; dialed := dialed s; connected := connected s;
     router := router s; inbound := inbound s;
     socket_first := socket_first s; control := f (control s);
     market_updates := market_updates s; ticker_updates := ticker_updates s |}.

Definition with_router (f : gmap string Handler → gmap string Handler) (s : Stream) : Stream :=
  {| dial := dial s; dialed := dialed s; connected := connected s;
     router := f (router s); inbound := inbound s;
     socket_first := socket_first s; control := control s;
     market_updates := market_updates s; ticker_updates := ticker_updates s |}.

Definition with_connected (b : bool) (s : Stream) : Stream :=
  {| dial := dial s; dialed := dialed s; connected := b;
     router := router s; inbound := inbound s;
     socket_first := socket_first s; control := control s;
     market_updates := market_updates s; ticker_updates := ticker_updates s |}.

Definition with_inbound (evs : list Event) (s : Stream) : Stream :=
  {| dial := dial s; dialed := dialed s; connected := connected s;
     router := router s; inbound := evs;
     socket_first := socket_first s; control := control s;
     market_updates := market_updates s; ticker_updates := ticker_updates s |}.

(** The state of a control channel; one never written to is open and empty. *)
Definition control_of (ch : chan bool) (s : Stream) : Control :=
  default {| pending := []; closed := false |} (control s !! chan_id ch).

(** The control signal indicates stop: a stop value is the next to be
    received, or the channel is closed with nothing left in it. *)
Definition indicates_stop (ch : chan bool) (s : Stream) : Prop :=
  (∃ rest, pending (control_of ch s) = true :: rest)
  ∨ (pending (control_of ch s) = [] ∧ closed (control_of ch s) = true).

Variant Instruction : Type := StopNow | ResetNow | NoSignal.

(** Modelled from the spec: polling the control signal (section 5): a
    pending value is received, [true] is the stop instruction and [false]
    the reset instruction; a closed and drained channel is a stop. *)
Definition poll (ch : chan bool) (s : Stream) : Instruction * Stream :=
  match pending (control_of ch s) with
  | v :: rest =>
      (if v then StopNow else ResetNow,
       with_control
         (insert (chan_id ch) {| pending := rest; closed := closed (control_of ch s) |}) s)
  | [] => (if closed (control_of ch s) then StopNow else NoSignal, s)
  end.

(** Modelled from the spec: [connect()] of the Stream Connection (4.4):
    the shared connection is reused when it is up, which needs no attempt
    and cannot fail; otherwise one attempt is made. *)
Definition connect (s : Stream) : option error * Stream :=
  if connected s then (None, s) else
  let outcome := dial s (dialed s) in
  (outcome,
   {| dial := dial s; dialed := S (dialed s); connected := is_nil outcome;
      router := router s; inbound := inbound s;
     socket_first := socket_first s; control := control s;
      market_updates := market_updates s; ticker_updates := ticker_updates s |}).

(** Modelled from the spec: tearing the Stream Connection down. *)
Definition teardown (s : Stream) : Stream := with_connected false s.

(** Modelled from the spec: the end of a subscription (section 3): its
    handler is deregistered, and the connection goes with the last one. *)
Definition leave (topic : string) (s : Stream) : Stream :=
  let s := with_router (delete topic) s in
  if bool_decide (router s = ∅) then teardown s else s.

(** Modelled from the spec: the handlers the package makes (4.5): decode
    the frame for the kind of subscription and send the update on the
    caller's channel; a frame that does not decode is dropped. *)
Definition invoke (handler : Handler) (data : bytes) (s : Stream) : Stream :=
  match handler with
  | makeOBookSubHandler updatesCh =>
      match decode_market data with
      | Some u =>
          {| dial := dial s; dialed := dialed s; connected := connected s;
             router := router s; inbound := inbound s;
     socket_first := socket_first s; control := control s;
             market_updates :=
               <[ chan_id updatesCh :=
                    default [] (market_updates s !! chan_id updatesCh) ++ [u] ]>
                 (market_updates s);
             ticker_updates := ticker_updates s |}
      | None => s
      end
  | makeTickerSubHandler updatesCh =>
      match decode_ticker data with
      | Some u =>
          {| dial := dial s; dialed := dialed s; connected := connected s;
             router := router s; inbound := inbound s;
     socket_first := socket_first s; control := control s;
             market_updates := market_updates s;
             ticker_updates :=
               <[ chan_id updatesCh :=
                    default [] (ticker_updates s !! chan_id updatesCh) ++ [u] ]>
                 (ticker_updates s) |}
      | None => s
      end
  end.

(** Modelled from the spec: [dispatch] of the Topic Router (4.5): the
    handler registered for the frame's topic is invoked, a frame for a
    topic with no handler is dropped. *)
Definition dispatch (topic : string) (data : bytes) (s : Stream) : Stream :=
  match router s !! topic with
  | Some handler => invoke handler data s
  | None => s
  end.

(** Modelled from the spec: the caller's side of a control channel, a
    send and a close.  A send on a closed channel panics in the sender and
    leaves the channel as it is. *)
Definition send (ch : chan bool) (v : bool) (s : Stream) : Stream :=
  if closed (control_of ch s) then s else
  with_control
    (insert (chan_id ch)
       {| pending := pending (control_of ch s) ++ [v]; closed := closed (control_of ch s) |}) s.

Definition close_chan (ch : chan bool) (s : Stream) : Stream :=
  with_control
    (insert (chan_id ch) {| pending := pending (control_of ch s); closed := true |}) s.

(** Modelled from the spec: a turn's look at the control signal in the
    state [Subscribed] of the Subscription Controller (4.6): a stop
    instruction ends the subscription ([Stopped], no error), a reset
    instruction tears the connection down ([Reconnecting]); with nothing
    pending the turn goes on with [k]. *)
Definition on_control (topic : string) (stopCh : chan bool) (evs : list Event)
    (s : Stream) (k : Stream → option ((bool * option error) * Stream)) :
    option ((bool * option error) * Stream) :=
  match poll stopCh s with
  | (StopNow, s) => Some ((false, None), with_inbound evs (leave topic s))
  | (ResetNow, s) =>
      Some ((true, None), with_inbound evs (teardown (with_router (delete topic) s)))
  | (NoSignal, s) => k s
  end.

(** Modelled from the spec: the read loop of the state [Subscribed] (4.6
    and section 5).  Each turn polls both, the socket and the control
    signal; the specification does not say which comes first, so the world
    decides ([socket_first]).  A frame goes to the router, a read error
    tears the connection down ([Reconnecting]) and ends the cycle at once;
    an instruction that is pending is seen within the turn.  With nothing
    more to come and nothing pending the read blocks for ever. *)
Fixpoint read_loop (topic : string) (stopCh : chan bool) (evs : list Event)
    (s : Stream) : option ((bool * option error) * Stream) :=
  match evs with
  | [] => on_control topic stopCh [] s (λ _, None)
  | ev :: evs' =>
      if socket_first s (length evs) then
        match ev with
        | Frame t data =>
            on_control topic stopCh evs' (dispatch t data s) (read_loop topic stopCh evs')
        | SocketDown e =>
            Some ((true, Some e), with_inbound evs' (teardown (with_router (delete topic) s)))
        | Signal ch v =>
            on_control topic stopCh evs' (send ch v s) (read_loop topic stopCh evs')
        | SignalClose ch =>
            on_control topic stopCh evs' (close_chan ch s) (read_loop topic stopCh evs')
        end
      else
        on_control topic stopCh evs s
          (λ s,
             match ev with
             | Frame t data => read_loop topic stopCh evs' (dispatch t data s)
             | SocketDown e =>
                 Some ((true, Some e),
                       with_inbound evs' (teardown (with_router (delete topic) s)))
             | Signal ch v => read_loop topic stopCh evs' (send ch v s)
             | SignalClose ch => read_loop topic stopCh evs' (close_chan ch s)
             end)
  end.

(** The read error is the first thing the read loop would see: a socket
    failure is the next event and the turn looks at the socket first. *)
Definition fails_first (s : Stream) : bool :=
  match inbound s with
  | SocketDown _ :: _ => socket_first s (length (inbound s))
  | _ => false
  end.

(** Modelled from the spec: one connect cycle of the Subscription
    Controller (4.6), from [Connecting] to [Reconnecting] (continue) or
    [Stopped] (do not continue).  A failed attempt ends in [Stopped] with
    its error when the control signal indicates stop, and is retried
    otherwise. *)
Definition wsConnect (topic : string) (handler : Handler) (stopCh : chan bool)
    (s : Stream) : option ((bool * option error) * Stream) :=
  match connect s with
  | (Some e, s) =>
      match poll stopCh s with
      | (StopNow, s) => Some ((false, Some e), s)
      | (_, s) => Some ((true, Some e), s)
      end
  | (None, s) => read_loop topic stopCh (inbound s) (with_router (insert topic handler) s)
  end.

(** Modelled from the spec: [UnsubscribeAll] and [Close] (4.6), with no
    subscription running: the router is emptied and the connection
    released. *)
Definition wsReset (s : Stream) : option error * Stream :=
  (None, teardown (with_router (λ _, ∅) s)).

Definition close (s : Stream) : option error * Stream :=
  (None, teardown (with_router (λ _, ∅) s)).

(** Modelled from the spec: the client, each method on the world. *)
Definition client : Client World :=
  λ X e,
    match e in clientE X return World → option (X * World) with
    | client_do method resource payload authNeeded =>
        λ w, let '(r, h) := do method resource payload authNeeded w.1 in Some (r, (h, w.2))
    | client_doCommand command payload =>
        λ w, let '(r, h) := doCommand command payload w.1 in Some (r, (h, w.2))
    | client_wsConnect topic handler stopCh =>
        λ w, match wsConnect topic handler stopCh w.2 with
             | Some (r, s) => Some (r, (w.1, s))
             | None => None
             end
    | client_wsReset => λ w, let '(r, s) := wsReset w.2 in Some (r, (w.1, s))
    | client_close => λ w, let '(r, s) := close w.2 in Some (r, (w.1, s))
    end.

(** The resources of the plain requests in a log, in the order sent. *)
Definition resources (log : list Sent) : list string :=
  omap (λ s, match s with SentPlain _ resource _ _ => Some resource | SentSigned _ => None end) log.

(** The nonces of the signed requests in a log, in the order sent. *)
Definition nonces (log : list Sent) : list Z :=
  omap (λ s, match s with SentSigned r => Some (sr_nonce r) | SentPlain _ _ _ _ => None end) log.
End Model.
End SpecClient.

(* ================================================================== *)
(** * A small instance of the parameters *)

Module Demo.
Import SpecClient.

Definition externals : Externals := {|
  Decimal := Z; float64 := Z; FormatFloat := pretty;
  Ticker := Z; VolumeCollection := gmap string Z; CurrencyTable := gmap string Z;
  CandleStick := Z; Balance := Z; Trade := Z; Deposit := Z; Withdrawal := Z;
  TradeOrder := Z; Fees := Z; MarketUpd := string; TickerUpd := string;
  zero_VolumeCollection := zero_gmap; zero_CurrencyTable := zero_gmap;
  zero_TradeOrder := zero_Z; zero_Fees := zero_Z;
  unicode_To_UpperCase := λ r, r;
|}.
#[local] Existing Instance externals.

(** A decoder that knows one body. *)
Definition reads {T : Type} (text : string) (v : T) : Unmarshal T :=
  λ r target,
    if String.eqb (string_of_list_byte r) text then (v, None)
    else (target, Some (errors_New "invalid character")).

Definition quoted (s : string) : string :=
  String (ascii_of_nat 34) s +:+ String (ascii_of_nat 34) "".

(** The body [{"error":"Invalid currency pair."}] and what it decodes to
    as an [OrderBook]. *)
Definition error_body : string :=
  "{" +:+ quoted "error" +:+ ":" +:+ quoted "Invalid currency pair." +:+ "}".

Definition error_book : OrderBook :=
  {| Asks := []; Bids := []; IsFrozen := 0; Error := "Invalid currency pair."; Seq := 0 |}.

(** The body
    [{"BTC_ETH":{"asks":[],"bids":[],"isFrozen":"1","error":"Market frozen.","seq":7}}]
    and what it decodes to as a [map[string]OrderBook]. *)
Definition books_body : string :=
  "{" +:+ quoted "BTC_ETH" +:+ ":{" +:+ quoted "asks" +:+ ":[]," +:+ quoted "bids" +:+ ":[],"
    +:+ quoted "isFrozen" +:+ ":" +:+ quoted "1" +:+ "," +:+ quoted "error" +:+ ":"
    +:+ quoted "Market frozen." +:+ "," +:+ quoted "seq" +:+ ":7}}".

Definition frozen_book : OrderBook :=
  {| Asks := []; Bids := []; IsFrozen := 1; Error := "Market frozen."; Seq := 7 |}.

Definition json : Json := {|
  json_tickers := reads "{}" ∅;
  json_volumes := reads "{}" (∅ : gmap string Z);
  json_currencies := reads "{}" (∅ : gmap string Z);
  json_orderbook := reads error_body error_book;
  json_orderbooks := reads books_body {[ "BTC_ETH" := frozen_book ]};
  json_candles := reads "[]" [];
  json_balances := reads "{}" ∅;
  json_trades := reads "[]" [];
  json_trades_all := reads "{}" ∅;
  json_deposits := reads "{}" {| Deposits := []; Withdrawals := [] |};
  json_tradeorder := reads "{}" 0;
  json_openorders := reads "[]" [];
  json_openorders_all := reads "{}" ∅;
  json_fees := reads "{}" 0;
|}.

Definition wire : Wire := {|
  form_encode := λ m,
    list_byte_of_string
      (foldr (λ kv acc, kv.1 +:+ "=" +:+ kv.2 +:+ "&" +:+ acc) "" (map_to_list m));
  sign := λ secret body, list_byte_of_string secret ++ body;
  envelope_error := λ r,
    if String.eqb (string_of_list_byte r) error_body then Some "Invalid currency pair."
    else None;
  decode_market := λ data, Some (string_of_list_byte data);
  decode_ticker := λ data, Some (string_of_list_byte data);
|}.

(** A counterparty that answers every request with [body]. *)
Definition http (body : string) : Http :=
  {| credentials := {| apiKey := "key"; apiSecret := "secret" |}; nonce := 0;
     transport := λ _, (list_byte_of_string body, None); sent := [] |}.

(** An endpoint that accepts every connection ([up]) or refuses every one,
    with the control channel 1 in the state [ctl]. *)
Definition stream (up : bool) (ctl : Control) : Stream :=
  {| dial := λ _, if up then None else Some (errors_New "connection refused");
     dialed := 0; connected := false; router := ∅; inbound := [];
     socket_first := λ _, false;
     control := {[ 1%nat := ctl ]}; market_updates := ∅; ticker_updates := ∅ |}.

Definition world (body : string) (up : bool) (ctl : Control) : World :=
  (http body, stream up ctl).

Definition the_client : Client World := @client externals wire.

Definition closed_channel : Control := {| pending := []; closed := true |}.

(** The caller asked for a reconnect, then for a stop. *)
Definition reset_then_stop : Control := {| pending := [false; true]; closed := false |}.

End Demo.

(** Further worlds for the small instance. *)
Module Cases.
Import SpecClient.
#[local] Existing Instances Demo.externals Demo.wire.

(** A counterparty that cannot be reached: every request times out. *)
Definition unreachable : World :=
  ({| credentials := {| apiKey := "key"; apiSecret := "secret" |}; nonce := 0;
      transport := λ _, ([], Some (errors_New "timeout")); sent := [] |},
   Demo.stream false Demo.closed_channel).

(** An endpoint that refuses every connection, after [d] attempts, with no
    control channel written to and nothing coming in. *)
Definition refusing (d : nat) : World :=
  (Demo.http "",
   {| dial := λ _, Some (errors_New "connection refused"); dialed := d;
      connected := false; router := ∅; inbound := []; socket_first := λ _, false;
      control := ∅; market_updates := ∅; ticker_updates := ∅ |}).


(** An endpoint that accepts every connection and whose socket then fails,
    with a read loop that looks at the socket first; the control channel 1
    is closed. *)
Definition dropping : World :=
  (Demo.http "",
   {| dial := λ _, None; dialed := 0; connected := false; router := ∅;
      inbound := [SocketDown (errors_New "unexpected EOF")]; socket_first := λ _, true;
      control := {[ 1%nat := Demo.closed_channel ]};
      market_updates := ∅; ticker_updates := ∅ |}).

(** An endpoint that accepts every connection and has a frame for the
    topic [BTC_ETH] ready, with a read loop that looks at the socket first;
    the control channel 1 is closed. *)
Definition streaming : World :=
  (Demo.http "",
   {| dial := λ _, None; dialed := 0; connected := false; router := ∅;
      inbound := [Frame "BTC_ETH" (list_byte_of_string "update")];
      socket_first := λ _, true;
      control := {[ 1%nat := Demo.closed_channel ]};
      market_updates := ∅; ticker_updates := ∅ |}).

(** The letter sharp s in UTF-8: the small one, U+00DF, and the capital
    one, U+1E9E. *)
Definition small_sharp_s : string :=
  String (ascii_of_nat 195) (String (ascii_of_nat 159) "").
Definition capital_sharp_s : string :=
  String (ascii_of_nat 225) (String (ascii_of_nat 186) (String (ascii_of_nat 158) "")).

(** One word in small letters and in capitals. *)
Definition strasse_small : string := "stra" +:+ small_sharp_s +:+ "e".
Definition strasse_capital : string := "STRA" +:+ capital_sharp_s +:+ "E".

(** The small letter of a rune, for the ASCII letters and the sharp s. *)
Definition small_letter (r : Z) : Z :=
  if (65 <=? r) && (r <=? 90) then r + 32 else if r =? 7838 then 223 else r.
End Cases.

(* ================================================================== *)
(** * Letter case *)

Lemma upper_byte_not_lower c : is_lower (upper_byte c) = false.
Proof.
  unfold upper_byte. destruct (is_lower c) eqn:Hc; [|assumption].
  unfold is_lower in *. apply andb_true_iff in Hc as [H1 H2].
  apply N.leb_le in H1, H2.
  rewrite N_ascii_embedding by lia.
  apply andb_false_iff. left. apply N.leb_gt. lia.
Qed.

Lemma upper_byte_idem c : upper_byte (upper_byte c) = upper_byte c.
Proof. unfold upper_byte at 1. rewrite upper_byte_not_lower. reflexivity. Qed.

Lemma upper_byte_ascii c : is_ascii_byte (upper_byte c) = is_ascii_byte c.
Proof.
  unfold upper_byte. destruct (is_lower c) eqn:Hc; [|reflexivity].
  unfold is_lower in Hc. apply andb_true_iff in Hc as [H1 H2].
  apply N.leb_le in H1, H2. unfold is_ascii_byte.
  rewrite N_ascii_embedding by lia.
  transitivity true; [|symmetry]; apply N.ltb_lt; lia.
Qed.

Lemma same_letter_upper c d : same_letter c d → upper_byte c = upper_byte d.
Proof.
  intros [-> | [[_ ->] | [_ ->]]]; [reflexivity| |]; rewrite upper_byte_idem; reflexivity.
Qed.

Lemma same_letter_ascii c d : same_letter c d → is_ascii_byte c = is_ascii_byte d.
Proof.
  intros [-> | [[_ ->] | [_ ->]]]; [reflexivity| |]; rewrite upper_byte_ascii; reflexivity.
Qed.

Lemma case_variant_ascii s t :
  case_variant s t → all_bytes is_ascii_byte s = all_bytes is_ascii_byte t.
Proof.
  induction 1 as [|c d s t Hcd _ IH]; cbn; [reflexivity|].
  rewrite (same_letter_ascii _ _ Hcd), IH. reflexivity.
Qed.

Lemma case_variant_map_upper s t :
  case_variant s t → map_bytes upper_byte s = map_bytes upper_byte t.
Proof.
  induction 1 as [|c d s t Hcd _ IH]; cbn; [reflexivity|].
  rewrite (same_letter_upper _ _ Hcd), IH. reflexivity.
Qed.

Lemma case_variant_refl s : case_variant s s.
Proof. induction s; constructor; [left; reflexivity | assumption]. Qed.

Lemma case_variant_upper s : case_variant s (map_bytes upper_byte s).
Proof.
  induction s as [|c s IH]; cbn; constructor; [|assumption].
  unfold same_letter. destruct (is_lower c) eqn:Hc.
  - right. left. split; reflexivity.
  - left. unfold upper_byte. rewrite Hc. reflexivity.
Qed.

Lemma map_upper_no_lower s :
  all_bytes (λ c, negb (is_lower c)) s = true → map_bytes upper_byte s = s.
Proof.
  induction s as [|c s IH]; cbn; [reflexivity|].
  intros [Hc Hs]%andb_true_iff. rewrite (IH Hs).
  unfold upper_byte. apply negb_true_iff in Hc. rewrite Hc. reflexivity.
Qed.

(** The ASCII branch of [unicode.ToUpper] on a byte. *)
Lemma unicode_ToUpper_byte `{Externals} c :
  is_ascii_byte c = true →
  unicode_ToUpper (Z.of_N (N_of_ascii c)) = Z.of_N (N_of_ascii (upper_byte c)).
Proof.
  unfold is_ascii_byte, unicode_ToUpper, upper_byte, is_lower. intros Hc%N.ltb_lt.
  destruct (Z.leb_spec (Z.of_N (N_of_ascii c)) 127); [|lia].
  destruct (Z.leb_spec 97 (Z.of_N (N_of_ascii c))), (Z.leb_spec (Z.of_N (N_of_ascii c)) 122),
    (N.leb_spec 97 (N_of_ascii c)), (N.leb_spec (N_of_ascii c) 122);
    cbn [andb]; try lia; try reflexivity.
  rewrite N_ascii_embedding by lia. lia.
Qed.

Lemma same_letter_byte_variant `{Externals} c d :
  same_letter c d →
  byte_variant (Some (Z.of_N (N_of_ascii c))) (Some (Z.of_N (N_of_ascii d))).
Proof.
  assert (Hlow : ∀ e, is_lower e = true →
            Z.of_N (N_of_ascii e) < 128 ∧ Z.of_N (N_of_ascii (upper_byte e)) < 128
            ∧ unicode_ToUpper (Z.of_N (N_of_ascii e))
              = unicode_ToUpper (Z.of_N (N_of_ascii (upper_byte e)))).
  { intros e He.
    assert (Hup : upper_byte e = ascii_of_N (N_of_ascii e - 32))
      by (unfold upper_byte; rewrite He; reflexivity).
    pose proof He as He'. unfold is_lower in He'.
    apply andb_true_iff in He' as [H1%N.leb_le H2%N.leb_le].
    assert (Ha : is_ascii_byte e = true) by (apply N.ltb_lt; lia).
    assert (Hb : is_ascii_byte (upper_byte e) = true).
    { rewrite Hup. unfold is_ascii_byte. rewrite N_ascii_embedding by lia. apply N.ltb_lt. lia. }
    split; [lia|]. split.
    - rewrite Hup, N_ascii_embedding by lia. lia.
    - rewrite (unicode_ToUpper_byte e Ha), (unicode_ToUpper_byte _ Hb).
      unfold upper_byte at 2. rewrite upper_byte_not_lower. reflexivity. }
  intros [-> | [[Hc ->] | [Hd ->]]]; cbn.
  - left. reflexivity.
  - right. apply Hlow, Hc.
  - right. destruct (Hlow d Hd) as (H1 & H2 & H3). auto.
Qed.

Lemma byte_at_variant `{Externals} s t :
  case_variant s t → ∀ i, byte_variant (byte_at i s) (byte_at i t).
Proof.
  induction 1 as [|c d s t Hcd _ IH]; intros i.
  - destruct i; exact I.
  - destruct i as [|i]; [apply same_letter_byte_variant, Hcd | apply IH].
Qed.

Lemma continues_variant `{Externals} lo hi x y :
  128 ≤ lo → byte_variant x y → continues lo hi x = continues lo hi y.
Proof.
  intros Hlo. destruct x as [x|], y as [y|]; cbn; try tauto.
  intros [-> | (Hx & Hy & _)]; [reflexivity|].
  rewrite !(proj2 (Z.leb_gt lo _)) by lia. reflexivity.
Qed.

Lemma continues_same `{Externals} lo hi x y :
  128 ≤ lo → byte_variant x y → continues lo hi x = true → x = y.
Proof.
  intros Hlo. destruct x as [x|], y as [y|]; cbn; try tauto; try discriminate.
  intros [-> | (Hx & _)] [H1%Z.leb_le _]%andb_true_iff; [reflexivity | lia].
Qed.

Lemma case_variant_skip s t : case_variant s t → ∀ n, case_variant (skip n s) (skip n t).
Proof.
  induction 1 as [|c d s t Hcd Hst IH]; intros [|n]; cbn; try constructor; auto.
Qed.

Lemma case_variant_length s t : case_variant s t → String.length s = String.length t.
Proof. induction 1; cbn; congruence. Qed.

(** The first rune of two case variants: the same width, and the same
    upper-case rune. *)
Lemma DecodeRune_variant `{Externals} s t :
  case_variant s t →
  (DecodeRuneInString s).2 = (DecodeRuneInString t).2
  ∧ unicode_ToUpper (DecodeRuneInString s).1 = unicode_ToUpper (DecodeRuneInString t).1.
Proof.
  intros Hst. pose proof (byte_at_variant s t Hst) as Hat.
  unfold DecodeRuneInString.
  pose proof (Hat 0%nat) as H0.
  destruct (byte_at 0 s) as [x|], (byte_at 0 t) as [y|]; cbn in H0; try tauto.
  destruct H0 as [<- | (Hx & Hy & Hup)].
  2: { rewrite !(proj2 (Z.ltb_lt _ 128)) by assumption. split; [reflexivity | exact Hup]. }
  destruct (x <? 128); [split; reflexivity|].
  destruct ((x <? 194) || (244 <? x)); [split; reflexivity|].
  cbv zeta.
  set (lo := if x =? 224 then 160 else if x =? 240 then 144 else 128).
  set (hi := if x =? 237 then 159 else if x =? 244 then 143 else 191).
  assert (Hlo : 128 ≤ lo) by (unfold lo; destruct (x =? 224), (x =? 240); lia).
  rewrite <- (continues_variant lo hi _ _ Hlo (Hat 1%nat)).
  destruct (continues lo hi (byte_at 1 s)) eqn:H1; cbn [negb]; [|split; reflexivity].
  rewrite <- (continues_same lo hi _ _ Hlo (Hat 1%nat) H1).
  destruct ((if x <? 224 then 2 else if x <? 240 then 3 else 4) <=? 2); [split; reflexivity|].
  rewrite <- (continues_variant 128 191 _ _ ltac:(lia) (Hat 2%nat)).
  destruct (continues 128 191 (byte_at 2 s)) eqn:H2; cbn [negb]; [|split; reflexivity].
  rewrite <- (continues_same 128 191 _ _ ltac:(lia) (Hat 2%nat) H2).
  destruct ((if x <? 224 then 2 else if x <? 240 then 3 else 4) <=? 3); [split; reflexivity|].
  rewrite <- (continues_variant 128 191 _ _ ltac:(lia) (Hat 3%nat)).
  destruct (continues 128 191 (byte_at 3 s)) eqn:H3; cbn [negb]; [|split; reflexivity].
  rewrite <- (continues_same 128 191 _ _ ltac:(lia) (Hat 3%nat) H3).
  split; reflexivity.
Qed.

Lemma runes_variant `{Externals} fuel :
  ∀ s t, case_variant s t →
    List.map unicode_ToUpper (runes_upto fuel s)
    = List.map unicode_ToUpper (runes_upto fuel t).
Proof.
  induction fuel as [|fuel IH]; intros s t Hst; [reflexivity|].
  destruct (DecodeRune_variant s t Hst) as [Hw Hr].
  destruct Hst as [|c d s t Hcd Hst]; [reflexivity|].
  cbn [runes_upto].
  destruct (DecodeRuneInString (String c s)) as [r w].
  destruct (DecodeRuneInString (String d t)) as [r' w'].
  cbn [fst snd] in Hw, Hr. subst w'. cbn [List.map]. rewrite Hr. f_equal.
  apply IH, case_variant_skip. constructor; assumption.
Qed.

(** [strings.Map(unicode.ToUpper, s)] does not tell case variants apart. *)
Lemma strings_Map_variant `{Externals} s t :
  case_variant s t → strings_Map unicode_ToUpper s = strings_Map unicode_ToUpper t.
Proof.
  intros Hst. unfold strings_Map, runes.
  rewrite (case_variant_length s t Hst), (runes_variant _ s t Hst). reflexivity.
Qed.

(** On an ASCII string [strings.ToUpper] maps byte by byte. *)
Lemma ToUpper_ascii `{Externals} s :
  all_bytes is_ascii_byte s = true → ToUpper s = map_bytes upper_byte s.
Proof.
  intros Hs. unfold ToUpper. rewrite Hs.
  destruct (all_bytes (λ c, negb (is_lower c)) s) eqn:Hl; [|reflexivity].
  symmetry. apply map_upper_no_lower, Hl.
Qed.

(** The library's arithmetic on a byte gives the capital of the alphabet. *)
Lemma upper_byte_capital c : upper_byte c = capital c.
Proof. destruct c as [[] [] [] [] [] [] [] []]; vm_compute; reflexivity. Qed.

Lemma map_bytes_ext (f g : ascii → ascii) s :
  (∀ c, f c = g c) → map_bytes f s = map_bytes g s.
Proof. intros Hfg. induction s as [|c s IH]; cbn; [reflexivity|]. rewrite Hfg, IH. reflexivity. Qed.

Lemma byte_of_code c : byte_of (Z.of_N (N_of_ascii c)) = c.
Proof.
  unfold byte_of. pose proof (N_ascii_bounded c).
  rewrite Z.mod_small by lia. rewrite N2Z.id. apply ascii_N_embedding.
Qed.

(** On an ASCII string the general path of [strings.ToUpper] maps byte by
    byte as well. *)
Lemma strings_Map_ascii `{Externals} s :
  all_bytes is_ascii_byte s = true → strings_Map unicode_ToUpper s = map_bytes upper_byte s.
Proof.
  unfold strings_Map, runes.
  induction s as [|c s IH]; [reflexivity|].
  cbn [all_bytes]. intros [Hc Hs]%andb_true_iff.
  cbn [String.length runes_upto].
  assert (Hdec : DecodeRuneInString (String c s) = (Z.of_N (N_of_ascii c), 1%nat)).
  { unfold DecodeRuneInString, byte_at. cbn [String.get fmap option_fmap option_map].
    unfold is_ascii_byte in Hc. apply N.ltb_lt in Hc.
    rewrite (proj2 (Z.ltb_lt _ 128)) by lia. reflexivity. }
  rewrite Hdec. cbn [skip List.map foldr]. rewrite (IH Hs).
  rewrite (unicode_ToUpper_byte c Hc).
  pose proof (upper_byte_ascii c) as Hup. rewrite Hc in Hup.
  unfold is_ascii_byte in Hup. apply N.ltb_lt in Hup.
  rewrite (proj2 (Z.leb_le 0 _)) by lia.
  unfold EncodeRune. rewrite (proj2 (Z.leb_le _ 127)) by lia.
  rewrite byte_of_code. reflexivity.
Qed.

Lemma ToUpper_case_variant `{Externals} s t : case_variant s t → ToUpper s = ToUpper t.
Proof.
  intros Hst. destruct (all_bytes is_ascii_byte s) eqn:Hs.
  - rewrite !ToUpper_ascii; [apply case_variant_map_upper, Hst| |assumption].
    rewrite <- (case_variant_ascii _ _ Hst). assumption.
  - unfold ToUpper. rewrite <- (case_variant_ascii _ _ Hst), Hs.
    apply strings_Map_variant, Hst.
Qed.

(** [strings.ToUpper] is [strings.Map(unicode.ToUpper, s)], also where it
    takes the short way. *)
Lemma ToUpper_Map `{Externals} s : ToUpper s = strings_Map unicode_ToUpper s.
Proof.
  destruct (all_bytes is_ascii_byte s) eqn:Hs.
  - rewrite ToUpper_ascii, strings_Map_ascii by assumption. reflexivity.
  - unfold ToUpper. rewrite Hs. reflexivity.
Qed.

Lemma clamp_1_100_spec depth :
  clamp_1_100 depth = (if depth <? 1 then 1 else if 100 <? depth then 100 else depth).
Proof.
  unfold clamp_1_100.
  destruct (Z.ltb_spec depth 1), (Z.ltb_spec 100 depth); lia.
Qed.

(** The two [if]s of the order-book calls compute the window. *)
Lemma depth_window depth :
  (if (if 100 <? depth then 100 else depth) <? 1 then 1
   else if 100 <? depth then 100 else depth) = clamp_1_100 depth.
Proof.
  unfold clamp_1_100.
  destruct (Z.ltb_spec 100 depth) as [Hhi|Hhi].
  - change (100 <? 1) with false. cbv iota. lia.
  - destruct (Z.ltb_spec depth 1); lia.
Qed.

(* ================================================================== *)
(** * Runs *)

Section Runs.
Context `{!Externals} {W : Type} (c : Client W).

(** Running does not tell bisimilar programs apart. *)
Lemma run_eq_itree {R : Type} (n : nat) :
  ∀ (t t' : itree clientE R) (w : W), t ≅ t' → run c n t w = run c n t' w.
Proof.
  induction n as [|n IH]; intros t t' w Heq; punfold Heq; red in Heq; cbn.
  - destruct Heq; try discriminate; cbn; congruence.
  - destruct Heq; try discriminate; cbn.
    + congruence.
    + pclearbot. apply IH. assumption.
    + destruct (c _ e w) as [[x w']|]; [|reflexivity].
      apply IH. pclearbot. apply REL.
Qed.

Lemma run_Ret {R : Type} n (r : R) w : run c n (Ret r) w = Some (r, w).
Proof. destruct n; reflexivity. Qed.

Lemma run_Vis {R X : Type} n (e : clientE X) (k : X → itree clientE R) w :
  run c (S n) (Vis e k) w =
  match c _ e w with Some (x, w') => run c n (k x) w' | None => None end.
Proof. cbn. destruct (c X e w) as [[x w']|]; reflexivity. Qed.

(** A method call followed by the rest of the program. *)
Lemma run_call {R X : Type} n (e : clientE X) (k : X → itree clientE R) w :
  run c (S n) (call e ≫= k) w =
  match c _ e w with Some (x, w') => run c n (k x) w' | None => None end.
Proof.
  unfold mbind, itree_bind, call.
  rewrite (run_eq_itree _ _ _ _ (bind_trigger _ e k)). apply run_Vis.
Qed.

(** More fuel does not change a result. *)
Lemma run_mono {R : Type} (n : nat) :
  ∀ (t : itree clientE R) w res m, run c n t w = Some res → (n ≤ m)%nat → run c m t w = Some res.
Proof.
  induction n as [|n IH]; intros t w res m Hrun Hm.
  - destruct m; cbn in *; destruct (observe t); congruence.
  - destruct m as [|m]; [lia|]. cbn in *. destruct (observe t); [assumption| |].
    + apply IH; [assumption|lia].
    + destruct (c _ e w) as [[x w']|]; [|discriminate]. apply IH; [assumption|lia].
Qed.

(** One turn of a subscription loop, unfolded. *)
Lemma subscribe_unfold topic handler stopCh :
  ITree.iter (subscribe_turn topic handler stopCh) tt ≅
  Vis (client_wsConnect topic handler stopCh)
      (λ r : bool * option error,
         if r.1 then Tau (ITree.iter (subscribe_turn topic handler stopCh) tt)
         else Ret r.2).
Proof.
  rewrite unfold_iter. unfold subscribe_turn at 1. unfold mbind, itree_bind, call.
  rewrite bind_bind, bind_trigger.
  apply eqit_Vis. intros [cont err]. cbn.
  destruct cont; cbn; unfold mret, itree_ret; rewrite bind_ret_l; reflexivity.
Qed.

Lemma run_subscribe_0 topic handler stopCh w :
  run c 0 (ITree.iter (subscribe_turn topic handler stopCh) tt) w = None.
Proof. rewrite (run_eq_itree _ _ _ _ (subscribe_unfold topic handler stopCh)). reflexivity. Qed.

Lemma run_subscribe_S topic handler stopCh n w :
  run c (S n) (ITree.iter (subscribe_turn topic handler stopCh) tt) w =
  match c _ (client_wsConnect topic handler stopCh) w with
  | Some ((true, _), w') =>
      match n with
      | O => None
      | S n' => run c n' (ITree.iter (subscribe_turn topic handler stopCh) tt) w'
      end
  | Some ((false, err), w') => Some (err, w')
  | None => None
  end.
Proof.
  rewrite (run_eq_itree _ _ _ _ (subscribe_unfold topic handler stopCh)), run_Vis.
  destruct (c _ _ w) as [[[[] err] w']|]; cbn; try reflexivity; destruct n; reflexivity.
Qed.

(** A subscription loop returns [err] within [fuel] steps exactly when,
    after some number of cycles that asked to continue, a cycle asks not
    to and reports [err]; a continuing cycle costs two steps, the call
    and the jump back. *)
Lemma run_subscribe_iff topic handler stopCh :
  ∀ fuel w err w',
    run c fuel (ITree.iter (subscribe_turn topic handler stopCh) tt) w = Some (err, w') ↔
    ∃ n wn, (2 * n + 1 ≤ fuel)%nat
            ∧ after_cycles c topic handler stopCh n w = Some wn
            ∧ c _ (client_wsConnect topic handler stopCh) wn = Some ((false, err), w').
Proof.
  induction fuel as [fuel IH] using lt_wf_ind. intros w err w'.
  destruct fuel as [|fuel].
  { rewrite run_subscribe_0. split; [discriminate|]. intros (n & wn & Hn & _). lia. }
  rewrite run_subscribe_S. split.
  - destruct (c _ _ w) as [[[[] e] w1]|] eqn:Hc; [| |discriminate].
    + destruct fuel as [|fuel]; [discriminate|]. intros Hrun.
      apply IH in Hrun as (n & wn & Hn & Hcyc & Hlast); [|lia].
      exists (S n), wn. split; [lia|]. split; [|assumption]. cbn. rewrite Hc. assumption.
    + intros [= -> ->]. exists 0%nat, w. split; [lia|]. split; [reflexivity|assumption].
  - intros (n & wn & Hn & Hcyc & Hlast). destruct n as [|n]; cbn in Hcyc.
    + injection Hcyc as <-. rewrite Hlast. reflexivity.
    + destruct (c _ _ w) as [[[[] e] w1]|] eqn:Hc; try discriminate.
      destruct fuel as [|fuel]; [lia|]. apply IH; [lia|].
      exists n, wn. split; [lia|]. split; assumption.
Qed.
End Runs.

(* ================================================================== *)
(** * Properties of the exported methods *)

Ltac issue_call :=
  unfold mbind, itree_bind, call; rewrite bind_trigger; reflexivity.

(** Whatever the client answers, the rest of the method only computes. *)
Ltac returns_on_reply :=
  let r := fresh "r" in
  let err := fresh "err" in
  unfold mret, itree_ret; intros [r [err|]]; cbn; [eexists; reflexivity|];
  repeat match goal with
    | |- context [json_Unmarshal ?a ?b] => destruct (json_Unmarshal a b) as [? [?|]]; cbn
    | |- context [bool_decide ?P] => destruct (bool_decide P); cbn
    end;
  eexists; reflexivity.

(** Brings the request of hypothesis [H] into the form the goal has it. *)
Ltac same_request H :=
  match type of H with
  | _ = ?rhs =>
      match goal with
      | |- context [match ?c ?X ?e ?w with _ => _ end] => change (c X e w = rhs) in H
      end
  end.

Section PublicCalls.
Context `{!Externals, !Json}.

Lemma GetTickers_calls_once : calls_once GetTickers (public_GET "returnTicker" "").
Proof.
  unfold calls_once, GetTickers, public_GET. eexists. split; [issue_call | returns_on_reply].
Qed.

Lemma GetVolumes_calls_once : calls_once GetVolumes (public_GET "return24hVolume" "").
Proof.
  unfold calls_once, GetVolumes, public_GET. eexists. split; [issue_call | returns_on_reply].
Qed.

Lemma GetCurrencies_calls_once : calls_once GetCurrencies (public_GET "returnCurrencies" "").
Proof.
  unfold calls_once, GetCurrencies, public_GET. eexists.
  split; [issue_call | returns_on_reply].
Qed.

Lemma GetOrderBook_calls_once market cat depth :
  calls_once (GetOrderBook market cat depth)
    (public_GET "returnOrderBook"
       ("&currencyPair=" +:+ ToUpper market +:+ "&depth=" +:+ fmt_d (clamp_1_100 depth))).
Proof.
  unfold calls_once, GetOrderBook, public_GET. cbv zeta. rewrite depth_window.
  eexists. split; [issue_call | returns_on_reply].
Qed.

Lemma GetAllOrderBook_calls_once cat depth :
  calls_once (GetAllOrderBook cat depth)
    (public_GET "returnOrderBook" ("&currencyPair=all&depth=" +:+ fmt_d (clamp_1_100 depth))).
Proof.
  unfold calls_once, GetAllOrderBook, public_GET. cbv zeta. rewrite depth_window.
  eexists. split; [issue_call | returns_on_reply].
Qed.

Lemma ChartData_calls_once currencyPair period start end_ :
  calls_once (ChartData currencyPair period start end_)
    (public_GET "returnChartData"
       ("&currencyPair=" +:+ ToUpper currencyPair +:+ "&period=" +:+ fmt_d period
          +:+ "&start=" +:+ fmt_d (Unix start) +:+ "&end=" +:+ fmt_d (Unix end_))).
Proof.
  unfold calls_once, ChartData, public_GET. eexists. split; [issue_call | returns_on_reply].
Qed.

(** C7.  Each public market-data method calls the client once, and the call
    is an anonymous [GET] (no payload, no credentials) of the path
    [public?command=] followed by the command's name and its parameters:
    none for [GetTickers], [GetVolumes] and [GetCurrencies], the upper-cased
    pair (or [all]) and the depth for the order books, the upper-cased pair,
    the period, and the two Unix times for [ChartData]. *)
Theorem public_calls_are_anonymous_GETs :
  calls_once GetTickers (public_GET "returnTicker" "")
  ∧ calls_once GetVolumes (public_GET "return24hVolume" "")
  ∧ calls_once GetCurrencies (public_GET "returnCurrencies" "")
  ∧ (∀ market cat depth,
       calls_once (GetOrderBook market cat depth)
         (public_GET "returnOrderBook"
            ("&currencyPair=" +:+ ToUpper market +:+ "&depth=" +:+ fmt_d (clamp_1_100 depth))))
  ∧ (∀ cat depth,
       calls_once (GetAllOrderBook cat depth)
         (public_GET "returnOrderBook"
            ("&currencyPair=all&depth=" +:+ fmt_d (clamp_1_100 depth))))
  ∧ (∀ currencyPair period start end_,
       calls_once (ChartData currencyPair period start end_)
         (public_GET "returnChartData"
            ("&currencyPair=" +:+ ToUpper currencyPair +:+ "&period=" +:+ fmt_d period
               +:+ "&start=" +:+ fmt_d (Unix start) +:+ "&end=" +:+ fmt_d (Unix end_)))).
Proof.
  split; [apply GetTickers_calls_once|].
  split; [apply GetVolumes_calls_once|].
  split; [apply GetCurrencies_calls_once|].
  split; [apply GetOrderBook_calls_once|].
  split; [apply GetAllOrderBook_calls_once | apply ChartData_calls_once].
Qed.

(** C8.  The request of [GetOrderBook] and of [GetAllOrderBook] carries the
    depth brought into the window from 1 to 100 ([clamp_1_100]: 100 for a
    depth above 100, 1 for a depth below 1, the depth itself otherwise), and
    the two methods are the same program for every value of [cat]. *)
Theorem depth_clamped_and_cat_ignored market cat depth :
  calls_once (GetOrderBook market cat depth)
    (client_do "GET"
       ("public?command=returnOrderBook&currencyPair=" +:+ ToUpper market
          +:+ "&depth=" +:+ fmt_d (clamp_1_100 depth)) None false)
  ∧ calls_once (GetAllOrderBook cat depth)
      (client_do "GET"
         ("public?command=returnOrderBook&currencyPair=all&depth="
            +:+ fmt_d (clamp_1_100 depth)) None false)
  ∧ clamp_1_100 depth = (if depth <? 1 then 1 else if 100 <? depth then 100 else depth)
  ∧ ∀ cat', GetOrderBook market cat' depth = GetOrderBook market cat depth
            ∧ GetAllOrderBook cat' depth = GetAllOrderBook cat depth.
Proof.
  split; [apply GetOrderBook_calls_once|].
  split; [apply GetAllOrderBook_calls_once|].
  split; [apply clamp_1_100_spec|].
  intros cat'. split; reflexivity.
Qed.

(** C10, as the code has it.  The pair in the request of [GetOrderBook]
    and of [ChartData] is [strings.ToUpper] of the caller's argument: every
    rune mapped by [unicode.ToUpper], which for an ASCII argument is the
    argument with each small letter replaced by its capital.  For two
    arguments that differ only in the case of their ASCII letters the two
    methods are the same program, so they issue the same request. *)
Theorem ascii_case_of_pair_is_ignored m1 m2 cat depth period start end_ :
  case_variant m1 m2 →
  calls_once (GetOrderBook m1 cat depth)
    (client_do "GET"
       ("public?command=returnOrderBook&currencyPair=" +:+ ToUpper m1
          +:+ "&depth=" +:+ fmt_d (clamp_1_100 depth)) None false)
  ∧ calls_once (ChartData m1 period start end_)
      (client_do "GET"
         ("public?command=returnChartData&currencyPair=" +:+ ToUpper m1
            +:+ "&period=" +:+ fmt_d period +:+ "&start=" +:+ fmt_d (Unix start)
            +:+ "&end=" +:+ fmt_d (Unix end_)) None false)
  ∧ ToUpper m1 = strings_Map unicode_ToUpper m1
  ∧ (all_bytes is_ascii_byte m1 = true → ToUpper m1 = map_bytes capital m1)
  ∧ GetOrderBook m1 cat depth = GetOrderBook m2 cat depth
  ∧ ChartData m1 period start end_ = ChartData m2 period start end_.
Proof.
  intros Hcase. split; [apply GetOrderBook_calls_once|].
  split; [apply ChartData_calls_once|].
  split; [apply ToUpper_Map|]. split; [|split].
  - intros Hascii. rewrite (ToUpper_ascii m1 Hascii).
    apply map_bytes_ext, upper_byte_capital.
  - unfold GetOrderBook. rewrite (ToUpper_case_variant m1 m2 Hcase). reflexivity.
  - unfold ChartData. rewrite (ToUpper_case_variant m1 m2 Hcase). reflexivity.
Qed.
End PublicCalls.

Section AnyClient.
Context `{!Externals, !Json} {W : Type} (c : Client W).

(** C1, as the code has it.  When the reply to [GetOrderBook] decodes with
    no error and the decoded order book has a non-empty [Error] field, the
    method returns that order book with an error made of the field's text.
    [GetAllOrderBook] has no such check: when the reply decodes with no
    error, the decoded map is returned with a nil error, whatever the
    [Error] fields of its order books. *)
Theorem order_book_error_field fuel w w' r :
  (∀ market cat depth orderBook,
     c _ (public_GET "returnOrderBook"
            ("&currencyPair=" +:+ ToUpper market +:+ "&depth=" +:+ fmt_d (clamp_1_100 depth))) w
       = Some ((r, None), w') →
     json_Unmarshal r (zero : OrderBook) = (orderBook, None) →
     Error orderBook ≠ "" →
     run c (S fuel) (GetOrderBook market cat depth) w
       = Some ((orderBook, Some (errors_New (Error orderBook))), w'))
  ∧ (∀ cat depth orderBook,
       c _ (public_GET "returnOrderBook"
              ("&currencyPair=all&depth=" +:+ fmt_d (clamp_1_100 depth))) w
         = Some ((r, None), w') →
       json_Unmarshal r (zero : gmap string OrderBook) = (orderBook, None) →
       run c (S fuel) (GetAllOrderBook cat depth) w = Some ((orderBook, None), w')).
Proof.
  split.
  - intros market cat depth orderBook Hc Hd Herr.
    unfold GetOrderBook. cbv zeta. rewrite depth_window, run_call.
    same_request Hc. rewrite Hc. cbn.
    rewrite Hd. cbn. rewrite bool_decide_eq_true_2 by assumption. apply run_Ret.
  - intros cat depth orderBook Hc Hd.
    unfold GetAllOrderBook. cbv zeta. rewrite depth_window, run_call.
    same_request Hc. rewrite Hc. cbn.
    rewrite Hd. cbn. apply run_Ret.
Qed.

(** C2.  A subscribe call returns [err] (within [fuel] steps) exactly when
    some connect cycle, reached through cycles that all reported continue,
    reports do-not-continue together with [err]; [err] is nil when that
    cycle reported no error.  A cycle that continues costs two steps. *)
Theorem subscribe_returns_on_last_cycle symbol updatesCh tickerCh stopCh fuel w err w' :
  (run c fuel (SubscribeOrderBook symbol updatesCh stopCh) w = Some (err, w') ↔
   ∃ n wn, (2 * n + 1 ≤ fuel)%nat
           ∧ after_cycles c symbol (makeOBookSubHandler updatesCh) stopCh n w = Some wn
           ∧ c _ (client_wsConnect symbol (makeOBookSubHandler updatesCh) stopCh) wn
             = Some ((false, err), w'))
  ∧ (run c fuel (SubscribeTicker tickerCh stopCh) w = Some (err, w') ↔
     ∃ n wn, (2 * n + 1 ≤ fuel)%nat
             ∧ after_cycles c "ticker" (makeTickerSubHandler tickerCh) stopCh n w = Some wn
             ∧ c _ (client_wsConnect "ticker" (makeTickerSubHandler tickerCh) stopCh) wn
               = Some ((false, err), w')).
Proof. split; apply run_subscribe_iff. Qed.

(** C5.  A subscribe call is a connect cycle followed, when the cycle
    reports continue, by the same subscribe call (same topic, handler and
    control channel) after one silent step, with no other call to the client
    in between and no return; run against a client, the call goes on from
    the world the cycle left as a fresh call would. *)
Theorem subscribe_continues_at_once symbol updatesCh tickerCh stopCh :
  SubscribeOrderBook symbol updatesCh stopCh
    ≅ Vis (client_wsConnect symbol (makeOBookSubHandler updatesCh) stopCh)
          (λ r : bool * option error,
             if r.1 then Tau (SubscribeOrderBook symbol updatesCh stopCh) else Ret r.2)
  ∧ SubscribeTicker tickerCh stopCh
      ≅ Vis (client_wsConnect "ticker" (makeTickerSubHandler tickerCh) stopCh)
            (λ r : bool * option error,
               if r.1 then Tau (SubscribeTicker tickerCh stopCh) else Ret r.2)
  ∧ (∀ fuel w e w1,
       c _ (client_wsConnect symbol (makeOBookSubHandler updatesCh) stopCh) w
         = Some ((true, e), w1) →
       run c (S (S fuel)) (SubscribeOrderBook symbol updatesCh stopCh) w
         = run c fuel (SubscribeOrderBook symbol updatesCh stopCh) w1)
  ∧ (∀ fuel w e w1,
       c _ (client_wsConnect "ticker" (makeTickerSubHandler tickerCh) stopCh) w
         = Some ((true, e), w1) →
       run c (S (S fuel)) (SubscribeTicker tickerCh stopCh) w
         = run c fuel (SubscribeTicker tickerCh stopCh) w1).
Proof.
  split; [apply subscribe_unfold|]. split; [apply subscribe_unfold|].
  split; intros fuel w e w1 Hc; unfold SubscribeOrderBook, SubscribeTicker;
    rewrite run_subscribe_S, Hc; reflexivity.
Qed.

(** C9.  [GetTradeHistory] and [GetOpenOrders] succeed (nil error) exactly
    when the command is answered with no error and the body decodes with no
    error; for the pair [all] the result is the body decoded as the whole
    map, for any other pair it is the map with the one key [p], bound to the
    list the body decodes to. *)
Theorem pair_results_are_singletons (p : string) fuel w w' :
  (∀ start trades,
     run c (S fuel) (GetTradeHistory p start) w = Some ((trades, None), w') ↔
     ∃ r, c _ (client_doCommand "returnTradeHistory"
                 (Some {[ "currencyPair" := p; "start" := FormatUint start ]})) w
            = Some ((r, None), w')
          ∧ if bool_decide (p = "all")
            then json_Unmarshal r (∅ : gmap string (list Trade)) = (trades, None)
            else ∃ pairTrades, json_Unmarshal r ([] : list Trade) = (pairTrades, None)
                               ∧ trades = {[ p := pairTrades ]} ∧ dom trades = {[ p ]})
  ∧ (∀ openOrders,
       run c (S fuel) (GetOpenOrders p) w = Some ((openOrders, None), w') ↔
       ∃ r, c _ (client_doCommand "returnOpenOrders" (Some {[ "currencyPair" := p ]})) w
              = Some ((r, None), w')
            ∧ if bool_decide (p = "all")
              then json_Unmarshal r (∅ : gmap string (list OpenOrder)) = (openOrders, None)
              else ∃ onePairOrders,
                  json_Unmarshal r ([] : list OpenOrder) = (onePairOrders, None)
                  ∧ openOrders = {[ p := onePairOrders ]} ∧ dom openOrders = {[ p ]}).
Proof.
  split.
  - intros start trades. unfold GetTradeHistory. cbv zeta. rewrite run_call.
    destruct (c _ _ w) as [[[r [e|]] w1]|]; cbn; unfold mret, itree_ret.
    + rewrite run_Ret. split; [discriminate | intros (? & [=] & _)].
    + unfold zero, zero_list. destruct (bool_decide (p = "all")).
      * destruct (json_Unmarshal r ∅) as [m [e|]] eqn:Hd; cbn; rewrite run_Ret.
        -- split; [discriminate|].
           intros (? & [= <- <-] & Hd'). rewrite Hd in Hd'. discriminate.
        -- split.
           ++ intros [= <- <-]. eexists. split; [reflexivity | exact Hd].
           ++ intros (? & [= <- <-] & Hd'). rewrite Hd in Hd'.
              injection Hd' as <-. reflexivity.
      * destruct (json_Unmarshal r []) as [l [e|]] eqn:Hd; cbn; rewrite run_Ret.
        -- split; [discriminate|].
           intros (? & [= <- <-] & ? & Hd' & _). rewrite Hd in Hd'. discriminate.
        -- rewrite insert_empty. split.
           ++ intros [= <- <-]. eexists. split; [reflexivity|].
              eexists. split; [exact Hd|]. split; [reflexivity | apply dom_singleton_L].
           ++ intros (? & [= <- <-] & ? & Hd' & -> & _). rewrite Hd in Hd'.
              injection Hd' as <-. reflexivity.
    + split; [discriminate | intros (? & [=] & _)].
  - intros openOrders. unfold GetOpenOrders. cbv zeta. rewrite run_call.
    destruct (c _ _ w) as [[[r [e|]] w1]|]; cbn; unfold mret, itree_ret.
    + rewrite run_Ret. split; [discriminate | intros (? & [=] & _)].
    + unfold zero, zero_list. destruct (bool_decide (p = "all")).
      * destruct (json_Unmarshal r ∅) as [m [e|]] eqn:Hd; cbn; rewrite run_Ret.
        -- split; [discriminate|].
           intros (? & [= <- <-] & Hd'). rewrite Hd in Hd'. discriminate.
        -- split.
           ++ intros [= <- <-]. eexists. split; [reflexivity | exact Hd].
           ++ intros (? & [= <- <-] & Hd'). rewrite Hd in Hd'.
              injection Hd' as <-. reflexivity.
      * destruct (json_Unmarshal r []) as [l [e|]] eqn:Hd; cbn; rewrite run_Ret.
        -- split; [discriminate|].
           intros (? & [= <- <-] & ? & Hd' & _). rewrite Hd in Hd'. discriminate.
        -- rewrite insert_empty. split.
           ++ intros [= <- <-]. eexists. split; [reflexivity|].
              eexists. split; [exact Hd|]. split; [reflexivity | apply dom_singleton_L].
           ++ intros (? & [= <- <-] & ? & Hd' & -> & _). rewrite Hd in Hd'.
              injection Hd' as <-. reflexivity.
    + split; [discriminate | intros (? & [=] & _)].
Qed.
End AnyClient.

Section Dispatcher.
Import SpecClient.
Context `{!Externals, !Json, !Wire}.






End Dispatcher.

Section Controller.
Import SpecClient.
Context `{!Externals, !Json, !Wire}.










End Controller.

(* ================================================================== *)
(** * The properties at the small instance *)

Section Instances.
Import SpecClient.
#[local] Existing Instances Demo.externals Demo.json Demo.wire.

(** C1 at an instance: the reply [{"error":"Invalid currency pair."}] to
    [GetOrderBook]. *)
Lemma order_book_error_field_witness :
  ∃ w', run Demo.the_client 1 (GetOrderBook "btc_eth" "both" 500)
          (Demo.world Demo.error_body true Demo.closed_channel)
        = Some ((Demo.error_book, Some (errors_New "Invalid currency pair.")), w').
Proof.
  eexists.
  apply (proj1 (order_book_error_field Demo.the_client 0
                  (Demo.world Demo.error_body true Demo.closed_channel) _
                  (list_byte_of_string Demo.error_body))
           "btc_eth" "both" 500 Demo.error_book);
    [reflexivity | reflexivity | discriminate].
Defined.

(** C1, as stated, fails for [GetAllOrderBook]: the reply below decodes with
    no error into a map whose order book has a non-empty [Error] field, and
    the method returns the map with a nil error. *)
Lemma GetAllOrderBook_error_field_not_surfaced :
  fst <$> Demo.the_client _
            (public_GET "returnOrderBook"
               ("&currencyPair=all&depth=" +:+ fmt_d (clamp_1_100 5)))
            (Demo.world Demo.books_body true Demo.closed_channel)
  = Some (list_byte_of_string Demo.books_body, None)
  ∧ json_Unmarshal (list_byte_of_string Demo.books_body) (zero : gmap string OrderBook)
    = ({[ "BTC_ETH" := Demo.frozen_book ]}, None)
  ∧ Error Demo.frozen_book = "Market frozen."
  ∧ fst <$> run Demo.the_client 1 (GetAllOrderBook "both" 5)
              (Demo.world Demo.books_body true Demo.closed_channel)
    = Some ({[ "BTC_ETH" := Demo.frozen_book ]}, None).
Proof. repeat split; vm_compute; reflexivity. Qed.

(** C2 at an instance: the caller asks for a reconnect, then for a stop; the
    call returns nil after the second cycle. *)
Lemma subscribe_returns_on_last_cycle_witness :
  ∃ w', run Demo.the_client 3 (SubscribeOrderBook "BTC_ETH" (Chan 2) (Chan 1))
          (Demo.world "" true Demo.reset_then_stop)
        = Some (None, w').
Proof.
  eexists.
  apply (proj2 (proj1 (subscribe_returns_on_last_cycle Demo.the_client
                         "BTC_ETH" (Chan 2) (Chan 3) (Chan 1) 3
                         (Demo.world "" true Demo.reset_then_stop) None _))).
  exists 1%nat. eexists. split; [lia|]. split; reflexivity.
Defined.



(** A read loop that looks at the socket first hands the frame that is
    ready to the router and sees the stop within the same turn: the call
    returns in its first cycle, with that one update delivered. *)
Example stop_seen_after_one_frame :
  (λ r : option error * World, (r.1, dialed r.2.2, market_updates r.2.2 !! 2%nat))
    <$> run Demo.the_client 1 (SubscribeOrderBook "BTC_ETH" (Chan 2) (Chan 1)) Cases.streaming
  = Some (None, 1%nat, Some ["update"]).
Proof. vm_compute. reflexivity. Qed.

(** A read loop that looks at the socket first and meets a read error goes
    to [Reconnecting] before it has looked at the control signal: with the
    control channel closed the call returns in the second cycle. *)
Example read_error_first_takes_two_cycles :
  indicates_stop (Chan 1) Cases.dropping.2
  ∧ fails_first Cases.dropping.2 = true
  ∧ run Demo.the_client 2 (SubscribeOrderBook "BTC_ETH" (Chan 2) (Chan 1)) Cases.dropping
    = None
  ∧ (λ r : option error * World, (r.1, dialed r.2.2))
      <$> run Demo.the_client 3 (SubscribeOrderBook "BTC_ETH" (Chan 2) (Chan 1))
            Cases.dropping
    = Some (None, 2%nat).
Proof.
  split; [right; split; reflexivity|]. repeat split; vm_compute; reflexivity.
Qed.

(** C5 at an instance: after the reconnect the call goes on as a fresh
    call. *)
Lemma subscribe_continues_at_once_witness :
  ∃ w1, run Demo.the_client 3 (SubscribeOrderBook "BTC_ETH" (Chan 2) (Chan 1))
          (Demo.world "" true Demo.reset_then_stop)
        = run Demo.the_client 1 (SubscribeOrderBook "BTC_ETH" (Chan 2) (Chan 1)) w1.
Proof.
  eexists.
  apply (proj1 (proj2 (proj2 (subscribe_continues_at_once Demo.the_client
                                "BTC_ETH" (Chan 2) (Chan 3) (Chan 1))))
           1%nat (Demo.world "" true Demo.reset_then_stop) None).
  reflexivity.
Defined.

(** C9 at an instance: the reply [[]] to [GetTradeHistory] for one pair. *)
Lemma pair_results_are_singletons_witness :
  ∃ w', run Demo.the_client 1 (GetTradeHistory "BTC_ETH" 0)
          (Demo.world "[]" true Demo.closed_channel)
        = Some (({[ "BTC_ETH" := [] ]}, None), w').
Proof.
  eexists.
  apply (proj2 (proj1 (pair_results_are_singletons Demo.the_client "BTC_ETH" 0
                         (Demo.world "[]" true Demo.closed_channel) _)
                  0%N {[ "BTC_ETH" := [] ]})).
  eexists. split; [reflexivity|].
  rewrite bool_decide_eq_false_2 by discriminate.
  exists []. split; [reflexivity|]. split; [reflexivity | apply dom_singleton_L].
Defined.

(** C10 at an instance: [btc_nxt] and [BTC_NXT]. *)
Lemma ascii_case_of_pair_is_ignored_witness :
  case_variant "btc_nxt" "BTC_NXT"
  ∧ ToUpper "btc_nxt" = "BTC_NXT"
  ∧ GetOrderBook "btc_nxt" "both" 10 = GetOrderBook "BTC_NXT" "both" 10.
Proof.
  assert (Hcase : case_variant "btc_nxt" "BTC_NXT").
  { repeat constructor;
      first [ left; reflexivity | right; left; split; reflexivity ]. }
  split; [exact Hcase|].
  destruct (ascii_case_of_pair_is_ignored "btc_nxt" "BTC_NXT" "both" 10 300
              {| Unix := 0 |} {| Unix := 1 |} Hcase)
    as (_ & _ & _ & Hupper & Hbook & _).
  split; [exact (Hupper eq_refl) | exact Hbook].
Defined.

(** C10, as stated, fails outside ASCII.  The two spellings of one word
    below differ only in letter case: rune by rune the small letters of the
    second are the first.  [unicode.ToUpper] leaves the small sharp s, which
    has no capital in its tables, and the capital sharp s as they are, as
    does the table of the small instance; the upper-cased pairs differ, and
    so do the resources the two calls request. *)
Lemma sharp_s_case_changes_the_request :
  runes Cases.strasse_small = [115; 116; 114; 97; 223; 101]
  ∧ runes Cases.strasse_capital = [83; 84; 82; 65; 7838; 69]
  ∧ List.map Cases.small_letter (runes Cases.strasse_capital) = runes Cases.strasse_small
  ∧ ToUpper Cases.strasse_small = "STRA" +:+ Cases.small_sharp_s +:+ "E"
  ∧ ToUpper Cases.strasse_capital = "STRA" +:+ Cases.capital_sharp_s +:+ "E"
  ∧ (λ r : (OrderBook * option error) * World, resources (sent r.2.1))
      <$> run Demo.the_client 1 (GetOrderBook Cases.strasse_small "both" 10)
            (Demo.world "{}" true Demo.closed_channel)
    ≠ (λ r : (OrderBook * option error) * World, resources (sent r.2.1))
        <$> run Demo.the_client 1 (GetOrderBook Cases.strasse_capital "both" 10)
              (Demo.world "{}" true Demo.closed_channel).
Proof.
  repeat split; try (vm_compute; reflexivity).
  intros Heq. vm_compute in Heq. discriminate Heq.
Qed.



(** Four signed calls in a row on a fresh client carry the nonces 1 to 4,
    also when every answer is an error envelope. *)
Example four_calls_nonces :
  option_map (λ w : World, nonces (sent w.1))
    (run_calls Demo.the_client 1
       [CallGetBalances; CallGetFees; CallGetOpenOrders "all"; CallBuy "BTC_ETH" 1 2 ""]
       (Demo.world Demo.error_body false Demo.closed_channel))
  = Some [1; 2; 3; 4].
Proof. vm_compute. reflexivity. Qed.
End Instances.

(* ================================================================== *)
(** * More of the exported methods *)

(** Runs the one call of a method whose answer is hypothesis [H]. *)
Ltac answer_with H :=
  cbv zeta; rewrite run_call; same_request H; rewrite H; cbn;
  unfold mret, itree_ret.

(** Every way a method that calls the client once can end. *)
Ltac every_outcome :=
  match goal with
  | |- context [match ?c ?X ?e ?w with _ => _ end] =>
      destruct (c X e w) as [[[? [?|]] ?]|]; cbn; unfold mret, itree_ret
  end;
  repeat match goal with
    | |- context [bool_decide ?P] => destruct (bool_decide P); cbn
    | |- context [json_Unmarshal ?a ?b] => destruct (json_Unmarshal a b) as [? [?|]]; cbn
    end;
  rewrite ?run_Ret.

Section MorePrograms.
Context `{!Externals, !Json}.

(** X6.  [Buy] and [Sell] call the client once, with the commands [buy]
    and [sell] and the same parameters: [currencyPair], [rate], [amount]
    and, for a non-empty trade type, the trade type bound to [1].  A trade
    type that is the name of one of the three parameters replaces that
    parameter's value by [1]. *)
Theorem order_parameters p rate amount tradeType :
  ∃ params : gmap string string,
    calls_once (Buy p rate amount tradeType) (client_doCommand "buy" (Some params))
    ∧ calls_once (Sell p rate amount tradeType) (client_doCommand "sell" (Some params))
    ∧ dom params
      = {[ "currencyPair"; "rate"; "amount" ]}
        ∪ (if bool_decide (tradeType = "") then ∅ else {[ tradeType ]})
    ∧ (tradeType ≠ "" → params !! tradeType = Some "1")
    ∧ (tradeType ≠ "currencyPair" → params !! "currencyPair" = Some p)
    ∧ (tradeType ≠ "rate" → params !! "rate" = Some (FormatFloat rate))
    ∧ (tradeType ≠ "amount" → params !! "amount" = Some (FormatFloat amount)).
Proof.
  eexists. split; [|split].
  - unfold calls_once, Buy. cbv zeta. eexists. split; [issue_call | returns_on_reply].
  - unfold calls_once, Sell. cbv zeta. eexists. split; [issue_call | returns_on_reply].
  - destruct (decide (tradeType = "")) as [->|Hne].
    + rewrite bool_decide_eq_false_2 by tauto. rewrite bool_decide_eq_true_2 by reflexivity.
      split; [rewrite !dom_insert_L, dom_singleton_L, (right_id_L ∅ (∪)), (assoc_L (∪));
             reflexivity|].
      split; [tauto|].
      split; [|split]; intros _; reflexivity.
    + rewrite bool_decide_eq_true_2 by assumption.
      rewrite (bool_decide_eq_false_2 _ Hne).
      split; [rewrite !dom_insert_L, dom_singleton_L, (comm_L (∪) {[tradeType]}), (assoc_L (∪));
             reflexivity|].
      split; [intros _; apply lookup_insert_eq|].
      split; [|split]; intros Hk; rewrite lookup_insert_ne by congruence; reflexivity.
Qed.

(** X7.  Each of the other signed methods calls the client once, through
    [doCommand], with its command's name and parameters ([GetBalances] with
    a nil map, [GetFees] with an empty one), and returns on whatever comes
    back. *)
Theorem signed_calls_issue_one_command :
  calls_once GetBalances (client_doCommand "returnCompleteBalances" None)
  ∧ (∀ p start,
       calls_once (GetTradeHistory p start)
         (client_doCommand "returnTradeHistory"
            (Some {[ "currencyPair" := p; "start" := FormatUint start ]})))
  ∧ (∀ start end_,
       calls_once (GetDepositsWithdrawals start end_)
         (client_doCommand "returnDepositsWithdrawals"
            (Some {[ "start" := FormatUint start; "end" := FormatUint end_ ]})))
  ∧ (∀ p, calls_once (GetOpenOrders p)
            (client_doCommand "returnOpenOrders" (Some {[ "currencyPair" := p ]})))
  ∧ calls_once GetFees (client_doCommand "returnFeeInfo" (Some ∅)).
Proof.
  split; [|split; [|split; [|split]]].
  - unfold calls_once, GetBalances. cbv zeta. eexists. split; [issue_call | returns_on_reply].
  - intros p start. unfold calls_once, GetTradeHistory. cbv zeta. eexists.
    split; [issue_call | returns_on_reply].
  - intros start end_. unfold calls_once, GetDepositsWithdrawals. cbv zeta. eexists.
    split; [issue_call | returns_on_reply].
  - intros p. unfold calls_once, GetOpenOrders. cbv zeta. eexists.
    split; [issue_call | returns_on_reply].
  - unfold calls_once, GetFees. cbv zeta. eexists. split; [issue_call | returns_on_reply].
Qed.

Lemma ToUpper_upper_case s :
  all_bytes is_ascii_byte s = true →
  all_bytes (λ c, negb (is_lower c)) s = true →
  ToUpper s = s.
Proof. intros Ha Hl. unfold ToUpper. rewrite Ha, Hl. reflexivity. Qed.

Lemma map_upper_ascii s :
  all_bytes is_ascii_byte (map_bytes upper_byte s) = all_bytes is_ascii_byte s.
Proof. induction s as [|c s IH]; cbn; [reflexivity|]. rewrite upper_byte_ascii, IH. reflexivity. Qed.

Lemma map_upper_idem s : map_bytes upper_byte (map_bytes upper_byte s) = map_bytes upper_byte s.
Proof. induction s as [|c s IH]; cbn; [reflexivity|]. rewrite upper_byte_idem, IH. reflexivity. Qed.

Lemma ToUpper_idem_ascii s :
  all_bytes is_ascii_byte s = true → ToUpper (ToUpper s) = ToUpper s.
Proof.
  intros Ha. rewrite (ToUpper_ascii s Ha).
  rewrite ToUpper_ascii by (rewrite map_upper_ascii; exact Ha).
  apply map_upper_idem.
Qed.

(** X9.  A pair of ASCII bytes with no lower-case letter goes into the path
    of [GetOrderBook] and of [ChartData] byte for byte: nothing is escaped,
    a [&] or a [=] in the argument included. *)
Theorem upper_case_pair_sent_verbatim market cat depth period start end_ :
  all_bytes is_ascii_byte market = true →
  all_bytes (λ c, negb (is_lower c)) market = true →
  calls_once (GetOrderBook market cat depth)
    (client_do "GET"
       ("public?command=returnOrderBook&currencyPair=" +:+ market
          +:+ "&depth=" +:+ fmt_d (clamp_1_100 depth)) None false)
  ∧ calls_once (ChartData market period start end_)
      (client_do "GET"
         ("public?command=returnChartData&currencyPair=" +:+ market
            +:+ "&period=" +:+ fmt_d period +:+ "&start=" +:+ fmt_d (Unix start)
            +:+ "&end=" +:+ fmt_d (Unix end_)) None false).
Proof.
  intros Ha Hl. split.
  - rewrite <- (ToUpper_upper_case market Ha Hl) at 2. apply GetOrderBook_calls_once.
  - rewrite <- (ToUpper_upper_case market Ha Hl) at 2. apply ChartData_calls_once.
Qed.

(** X10.  For an ASCII pair, upper-casing the argument before the call
    changes nothing: [GetOrderBook] and [ChartData] are the same programs
    on [strings.ToUpper] of the pair and on the pair. *)
Theorem upper_casing_first_changes_nothing market cat depth period start end_ :
  all_bytes is_ascii_byte market = true →
  GetOrderBook (ToUpper market) cat depth = GetOrderBook market cat depth
  ∧ ChartData (ToUpper market) period start end_ = ChartData market period start end_.
Proof.
  intros Ha. unfold GetOrderBook, ChartData. rewrite (ToUpper_idem_ascii market Ha).
  split; reflexivity.
Qed.
End MorePrograms.

Section MoreAnyClient.
Context `{!Externals, !Json} {W : Type} (c : Client W).

Lemma run_call_O {R X : Type} (e : clientE X) (k : X → itree clientE R) w :
  run c 0 (call e ≫= k) w = None.
Proof.
  unfold mbind, itree_bind, call.
  rewrite (run_eq_itree c _ _ _ _ (bind_trigger _ e k)). reflexivity.
Qed.

(** X1.  When [client.do] reports an error, each public method returns that
    same error with the zero value of its result (a nil map, an empty order
    book, a nil slice); the body is not decoded. *)
Theorem public_call_transport_error fuel w w' r e :
  (c _ (public_GET "returnTicker" "") w = Some ((r, Some e), w') →
   run c (S fuel) GetTickers w = Some ((∅, Some e), w'))
  ∧ (c _ (public_GET "return24hVolume" "") w = Some ((r, Some e), w') →
     run c (S fuel) GetVolumes w = Some ((zero, Some e), w'))
  ∧ (c _ (public_GET "returnCurrencies" "") w = Some ((r, Some e), w') →
     run c (S fuel) GetCurrencies w = Some (({| Pair := zero |}, Some e), w'))
  ∧ (∀ market cat depth,
       c _ (public_GET "returnOrderBook"
              ("&currencyPair=" +:+ ToUpper market +:+ "&depth=" +:+ fmt_d (clamp_1_100 depth))) w
         = Some ((r, Some e), w') →
       run c (S fuel) (GetOrderBook market cat depth) w
         = Some (({| Asks := []; Bids := []; IsFrozen := 0; Error := ""; Seq := 0 |},
                  Some e), w'))
  ∧ (∀ cat depth,
       c _ (public_GET "returnOrderBook"
              ("&currencyPair=all&depth=" +:+ fmt_d (clamp_1_100 depth))) w
         = Some ((r, Some e), w') →
       run c (S fuel) (GetAllOrderBook cat depth) w = Some ((∅, Some e), w'))
  ∧ (∀ currencyPair period start end_,
       c _ (public_GET "returnChartData"
              ("&currencyPair=" +:+ ToUpper currencyPair +:+ "&period=" +:+ fmt_d period
                 +:+ "&start=" +:+ fmt_d (Unix start) +:+ "&end=" +:+ fmt_d (Unix end_))) w
         = Some ((r, Some e), w') →
       run c (S fuel) (ChartData currencyPair period start end_) w = Some (([], Some e), w')).
Proof.
  repeat split.
  - intros Hc. unfold GetTickers. answer_with Hc. apply run_Ret.
  - intros Hc. unfold GetVolumes. answer_with Hc. apply run_Ret.
  - intros Hc. unfold GetCurrencies. answer_with Hc. apply run_Ret.
  - intros market cat depth Hc. unfold GetOrderBook. cbv zeta. rewrite depth_window.
    answer_with Hc. apply run_Ret.
  - intros cat depth Hc. unfold GetAllOrderBook. cbv zeta. rewrite depth_window.
    answer_with Hc. apply run_Ret.
  - intros currencyPair period start end_ Hc. unfold ChartData. answer_with Hc. apply run_Ret.
Qed.

(** X2.  When [client.doCommand] reports an error, [GetBalances],
    [GetTradeHistory], [GetDepositsWithdrawals], [GetOpenOrders] and
    [GetFees] return that same error with an empty (or zero) result. *)
Theorem signed_call_command_error fuel w w' r e :
  (c _ (client_doCommand "returnCompleteBalances" None) w = Some ((r, Some e), w') →
   run c (S fuel) GetBalances w = Some ((∅, Some e), w'))
  ∧ (∀ p start,
       c _ (client_doCommand "returnTradeHistory"
              (Some {[ "currencyPair" := p; "start" := FormatUint start ]})) w
         = Some ((r, Some e), w') →
       run c (S fuel) (GetTradeHistory p start) w = Some ((∅, Some e), w'))
  ∧ (∀ start end_,
       c _ (client_doCommand "returnDepositsWithdrawals"
              (Some {[ "start" := FormatUint start; "end" := FormatUint end_ ]})) w
         = Some ((r, Some e), w') →
       run c (S fuel) (GetDepositsWithdrawals start end_) w = Some (([], [], Some e), w'))
  ∧ (∀ p,
       c _ (client_doCommand "returnOpenOrders" (Some {[ "currencyPair" := p ]})) w
         = Some ((r, Some e), w') →
       run c (S fuel) (GetOpenOrders p) w = Some ((∅, Some e), w'))
  ∧ (c _ (client_doCommand "returnFeeInfo" (Some ∅)) w = Some ((r, Some e), w') →
     run c (S fuel) GetFees w = Some ((zero, Some e), w')).
Proof.
  repeat split.
  - intros Hc. unfold GetBalances. answer_with Hc. apply run_Ret.
  - intros p start Hc. unfold GetTradeHistory. answer_with Hc. apply run_Ret.
  - intros start end_ Hc. unfold GetDepositsWithdrawals. answer_with Hc. apply run_Ret.
  - intros p Hc. unfold GetOpenOrders. answer_with Hc. apply run_Ret.
  - intros Hc. unfold GetFees. answer_with Hc. apply run_Ret.
Qed.

(** X3.  When the body of [GetOrderBook] does not decode, the decoder's
    error is returned with the partly decoded order book; the [Error] field
    is not looked at, so the decoder's error comes before the message of the
    counterparty. *)
Theorem order_book_decode_error market cat depth fuel w w' r orderBook e :
  c _ (public_GET "returnOrderBook"
         ("&currencyPair=" +:+ ToUpper market +:+ "&depth=" +:+ fmt_d (clamp_1_100 depth))) w
    = Some ((r, None), w') →
  json_Unmarshal r (zero : OrderBook) = (orderBook, Some e) →
  run c (S fuel) (GetOrderBook market cat depth) w = Some ((orderBook, Some e), w').
Proof.
  intros Hc Hd. unfold GetOrderBook. cbv zeta. rewrite depth_window.
  answer_with Hc. rewrite Hd. cbn. apply run_Ret.
Qed.

(** X4.  [GetOrderBook] returns a nil error exactly when the call was
    answered with no error, the body decoded with no error and the decoded
    order book has an empty [Error] field: an order book returned with a nil
    error never carries an error message. *)
Theorem order_book_success market cat depth fuel w w' orderBook :
  run c (S fuel) (GetOrderBook market cat depth) w = Some ((orderBook, None), w') ↔
  ∃ r, c _ (public_GET "returnOrderBook"
              ("&currencyPair=" +:+ ToUpper market +:+ "&depth="
                 +:+ fmt_d (clamp_1_100 depth))) w
         = Some ((r, None), w')
       ∧ json_Unmarshal r (zero : OrderBook) = (orderBook, None)
       ∧ Error orderBook = "".
Proof.
  unfold GetOrderBook, public_GET. cbv zeta. rewrite depth_window, run_call.
  match goal with
  | |- context [match ?f ?X ?e w with _ => _ end] =>
      change (c _ (client_do "GET" _ None false) w) with (f X e w);
      destruct (f X e w) as [[[r [e'|]] w1]|]
  end; cbn; unfold mret, itree_ret.
  - rewrite run_Ret. split; [discriminate | intros (? & [=] & _)].
  - destruct (json_Unmarshal r zero) as [ob [e'|]] eqn:Hd; cbn.
    + rewrite run_Ret. split; [discriminate|].
      intros (? & [= <- <-] & Hd' & _). rewrite Hd in Hd'. discriminate.
    + destruct (bool_decide_reflect (Error ob ≠ "")) as [Hne|He]; rewrite run_Ret.
      * split; [discriminate|].
        intros (? & [= <- <-] & Hd' & Hempty). rewrite Hd in Hd'.
        injection Hd' as <-. contradiction.
      * split.
        -- intros [= <- <-]. eexists. split; [reflexivity|]. split; [exact Hd|].
           destruct (decide (Error ob = "")); [assumption|contradiction].
        -- intros (? & [= <- <-] & Hd' & _). rewrite Hd in Hd'.
           injection Hd' as <-. reflexivity.
  - split; [discriminate | intros (? & [=] & _)].
Qed.

(** X5.  A failed call never hands out a partly decoded result: with a
    non-nil error, [Buy], [Sell] and [GetFees] return the zero value,
    [GetDepositsWithdrawals] two empty lists, and [GetTradeHistory] and
    [GetOpenOrders] for a pair other than [all] the empty map. *)
Theorem failed_results_are_empty fuel w w' err :
  (∀ p rate amount tradeType order,
     run c fuel (Buy p rate amount tradeType) w = Some ((order, Some err), w') →
     order = zero)
  ∧ (∀ p rate amount tradeType order,
       run c fuel (Sell p rate amount tradeType) w = Some ((order, Some err), w') →
       order = zero)
  ∧ (∀ fees, run c fuel GetFees w = Some ((fees, Some err), w') → fees = zero)
  ∧ (∀ start end_ deposits withdrawals,
       run c fuel (GetDepositsWithdrawals start end_) w
         = Some ((deposits, withdrawals, Some err), w') →
       deposits = [] ∧ withdrawals = [])
  ∧ (∀ p start trades,
       p ≠ "all" →
       run c fuel (GetTradeHistory p start) w = Some ((trades, Some err), w') →
       trades = ∅)
  ∧ (∀ p openOrders,
       p ≠ "all" →
       run c fuel (GetOpenOrders p) w = Some ((openOrders, Some err), w') →
       openOrders = ∅).
Proof.
  destruct fuel as [|fuel].
  { split; [|split; [|split; [|split; [|split]]]]; intros;
      match goal with
      | H : run c 0 ?t w = Some _ |- _ =>
          unfold Buy, Sell, GetFees, GetDepositsWithdrawals, GetTradeHistory, GetOpenOrders in H;
            cbv zeta in H; rewrite run_call_O in H; discriminate H
      end. }
  split; [|split; [|split; [|split; [|split]]]].
  - intros p rate amount tradeType order. unfold Buy. cbv zeta. rewrite run_call.
    every_outcome; intros [=]; subst; reflexivity.
  - intros p rate amount tradeType order. unfold Sell. cbv zeta. rewrite run_call.
    every_outcome; intros [=]; subst; reflexivity.
  - intros fees. unfold GetFees. cbv zeta. rewrite run_call.
    every_outcome; intros [=]; subst; reflexivity.
  - intros start end_ deposits withdrawals.
    unfold GetDepositsWithdrawals. cbv zeta. rewrite run_call.
    every_outcome; intros [=]; subst; split; reflexivity.
  - intros p start trades Hp. unfold GetTradeHistory. cbv zeta. rewrite run_call.
    rewrite (bool_decide_eq_false_2 _ Hp).
    every_outcome; intros [=]; subst; reflexivity.
  - intros p openOrders Hp. unfold GetOpenOrders. cbv zeta. rewrite run_call.
    rewrite (bool_decide_eq_false_2 _ Hp).
    every_outcome; intros [=]; subst; reflexivity.
Qed.

Lemma run_subscribe_never topic handler stopCh w :
  (∀ n, is_Some (after_cycles c topic handler stopCh n w)) →
  ∀ fuel, run c fuel (ITree.iter (subscribe_turn topic handler stopCh) tt) w = None.
Proof.
  intros Hall fuel.
  destruct (run c fuel _ w) as [[err w']|] eqn:Hrun; [|reflexivity].
  apply run_subscribe_iff in Hrun as (n & wn & _ & Hcyc & Hlast).
  destruct (Hall (S n)) as [w2 Hw2]. exfalso. revert Hw2. clear Hall.
  revert w Hcyc. induction n as [|n IH]; intros w Hcyc.
  - cbn in Hcyc. injection Hcyc as ->. cbn. rewrite Hlast. discriminate.
  - cbn in Hcyc. change (after_cycles c topic handler stopCh (S (S n)) w)
      with (match c _ (client_wsConnect topic handler stopCh) w with
            | Some ((true, _), w') => after_cycles c topic handler stopCh (S n) w'
            | _ => None
            end).
    destruct (c _ _ w) as [[[[] e] w1]|]; try discriminate. apply IH, Hcyc.
Qed.

(** X8.  As long as every connect cycle reports continue, a subscribe
    call does not return, whatever errors the cycles report: with any
    amount of fuel the run has no result. *)
Theorem subscribe_never_returns_while_cycles_continue symbol updatesCh tickerCh stopCh w :
  ((∀ n, is_Some (after_cycles c symbol (makeOBookSubHandler updatesCh) stopCh n w)) →
   ∀ fuel, run c fuel (SubscribeOrderBook symbol updatesCh stopCh) w = None)
  ∧ ((∀ n, is_Some (after_cycles c "ticker" (makeTickerSubHandler tickerCh) stopCh n w)) →
     ∀ fuel, run c fuel (SubscribeTicker tickerCh stopCh) w = None).
Proof. split; apply run_subscribe_never. Qed.

(** X11.  [GetTickers], [GetVolumes], [GetAllOrderBook], [ChartData],
    [GetBalances], and [GetTradeHistory] and [GetOpenOrders] for the pair
    [all], return what [json.Unmarshal] leaves in the zero (or empty) target
    together with its error, unchanged: a body that decodes in part comes
    back in part, with the error. *)
Theorem public_results_are_the_decoders fuel w w' r :
  (c _ (public_GET "returnTicker" "") w = Some ((r, None), w') →
   run c (S fuel) GetTickers w = Some (json_Unmarshal r (∅ : gmap string Ticker), w'))
  ∧ (c _ (public_GET "return24hVolume" "") w = Some ((r, None), w') →
     run c (S fuel) GetVolumes w = Some (json_Unmarshal r (zero : VolumeCollection), w'))
  ∧ (∀ cat depth,
       c _ (public_GET "returnOrderBook"
              ("&currencyPair=all&depth=" +:+ fmt_d (clamp_1_100 depth))) w
         = Some ((r, None), w') →
       run c (S fuel) (GetAllOrderBook cat depth) w
         = Some (json_Unmarshal r (∅ : gmap string OrderBook), w'))
  ∧ (∀ currencyPair period start end_,
       c _ (public_GET "returnChartData"
              ("&currencyPair=" +:+ ToUpper currencyPair +:+ "&period=" +:+ fmt_d period
                 +:+ "&start=" +:+ fmt_d (Unix start) +:+ "&end=" +:+ fmt_d (Unix end_))) w
         = Some ((r, None), w') →
       run c (S fuel) (ChartData currencyPair period start end_) w
         = Some (json_Unmarshal r ([] : list CandleStick), w'))
  ∧ (c _ (client_doCommand "returnCompleteBalances" None) w = Some ((r, None), w') →
     run c (S fuel) GetBalances w = Some (json_Unmarshal r (∅ : gmap string Balance), w'))
  ∧ (∀ start,
       c _ (client_doCommand "returnTradeHistory"
              (Some {[ "currencyPair" := "all"; "start" := FormatUint start ]})) w
         = Some ((r, None), w') →
       run c (S fuel) (GetTradeHistory "all" start) w
         = Some (json_Unmarshal r (∅ : gmap string (list Trade)), w'))
  ∧ (c _ (client_doCommand "returnOpenOrders" (Some {[ "currencyPair" := "all" ]})) w
       = Some ((r, None), w') →
     run c (S fuel) (GetOpenOrders "all") w
       = Some (json_Unmarshal r (∅ : gmap string (list OpenOrder)), w')).
Proof.
  split; [|split; [|split; [|split; [|split; [|split]]]]].
  - intros Hc. unfold GetTickers. answer_with Hc. unfold zero, zero_gmap.
    destruct (json_Unmarshal r ∅) as [v [e|]]; cbn; apply run_Ret.
  - intros Hc. unfold GetVolumes. answer_with Hc.
    destruct (json_Unmarshal r zero) as [v [e|]]; cbn; apply run_Ret.
  - intros cat depth Hc. unfold GetAllOrderBook. cbv zeta. rewrite depth_window.
    answer_with Hc. unfold zero, zero_gmap.
    destruct (json_Unmarshal r ∅) as [v [e|]]; cbn; apply run_Ret.
  - intros currencyPair period start end_ Hc. unfold ChartData. answer_with Hc.
    unfold zero, zero_list.
    destruct (json_Unmarshal r []) as [v [e|]]; cbn; apply run_Ret.
  - intros Hc. unfold GetBalances. answer_with Hc.
    destruct (json_Unmarshal r ∅) as [v [e|]]; cbn; apply run_Ret.
  - intros start Hc. unfold GetTradeHistory. answer_with Hc.
    destruct (json_Unmarshal r ∅) as [v [e|]]; cbn; apply run_Ret.
  - intros Hc. unfold GetOpenOrders. answer_with Hc.
    destruct (json_Unmarshal r ∅) as [v [e|]]; cbn; apply run_Ret.
Qed.
End MoreAnyClient.

Section MoreInstances.
Import SpecClient.
#[local] Existing Instances Demo.externals Demo.json Demo.wire.

(** X1 at an instance: [GetTickers] when the request times out. *)
Lemma public_call_transport_error_witness :
  ∃ w', run Demo.the_client 1 GetTickers Cases.unreachable
        = Some ((∅, Some (errors_New "timeout")), w').
Proof.
  eexists.
  apply (proj1 (public_call_transport_error Demo.the_client 0 Cases.unreachable _ []
                  (errors_New "timeout"))).
  reflexivity.
Defined.

(** X2 at an instance: [GetBalances] when the request times out. *)
Lemma signed_call_command_error_witness :
  ∃ w', run Demo.the_client 1 GetBalances Cases.unreachable
        = Some ((∅, Some (errors_New "timeout")), w').
Proof.
  eexists.
  apply (proj1 (signed_call_command_error Demo.the_client 0 Cases.unreachable _ []
                  (errors_New "timeout"))).
  reflexivity.
Defined.

(** X3 at an instance: a body that is no JSON. *)
Lemma order_book_decode_error_witness :
  ∃ w', run Demo.the_client 1 (GetOrderBook "btc_eth" "both" 5)
          (Demo.world "<html>" true Demo.closed_channel)
        = Some ((zero, Some (errors_New "invalid character")), w').
Proof.
  eexists.
  apply (order_book_decode_error Demo.the_client "btc_eth" "both" 5 0
           (Demo.world "<html>" true Demo.closed_channel) _
           (list_byte_of_string "<html>") zero (errors_New "invalid character"));
    reflexivity.
Defined.

(** X5 at an instance: [Buy] answered with a body that does not decode. *)
Lemma failed_results_are_empty_witness :
  ∃ (order : TradeOrder) err w',
    run Demo.the_client 1 (Buy "BTC_ETH" 1 2 "")
      (Demo.world "<html>" true Demo.closed_channel)
    = Some ((order, Some err), w')
    ∧ order = zero.
Proof.
  eexists _, _, _. split; [reflexivity|].
  eapply (proj1 (failed_results_are_empty Demo.the_client 1
                   (Demo.world "<html>" true Demo.closed_channel) _ _)
            "BTC_ETH" 1 2 "").
  reflexivity.
Defined.

(** X6 at an instance: the trade type [rate] takes the place of the rate. *)
Lemma order_parameters_witness :
  ∃ params : gmap string string,
    calls_once (Buy "BTC_ETH" 1 2 "rate") (client_doCommand "buy" (Some params))
    ∧ params !! "rate" = Some "1"
    ∧ params !! "amount" = Some "2".
Proof.
  destruct (@order_parameters Demo.externals Demo.json "BTC_ETH" 1 2 "rate")
    as (params & Hbuy & _ & _ & Htype & _ & _ & Hamount).
  exists params. split; [exact Hbuy|].
  split; [apply Htype; discriminate | apply Hamount; discriminate].
Defined.

(** The endpoint of [Cases.refusing] makes every cycle report continue. *)
Lemma refusing_cycles topic handler stopCh n :
  ∀ d, after_cycles Demo.the_client topic handler stopCh n (Cases.refusing d)
       = Some (Cases.refusing (n + d)).
Proof.
  induction n as [|n IH]; intros d; [reflexivity|].
  change (after_cycles Demo.the_client topic handler stopCh (S n) (Cases.refusing d))
    with (after_cycles Demo.the_client topic handler stopCh n (Cases.refusing (S d))).
  rewrite IH, Nat.add_succ_r. reflexivity.
Qed.

(** X8 at an instance: the endpoint refuses every connection and the caller
    never asks for a stop. *)
Lemma subscribe_never_returns_witness :
  run Demo.the_client 9 (SubscribeOrderBook "BTC_ETH" (Chan 2) (Chan 1)) (Cases.refusing 0)
  = None.
Proof.
  apply (proj1 (subscribe_never_returns_while_cycles_continue Demo.the_client
                  "BTC_ETH" (Chan 2) (Chan 3) (Chan 1) (Cases.refusing 0))).
  intros n. rewrite refusing_cycles. eexists. reflexivity.
Defined.

(** X9 at an instance: an argument with a [&] and a [=]. *)
Lemma upper_case_pair_sent_verbatim_witness :
  calls_once (GetOrderBook "BTC_ETH&A=1" "both" 50)
    (client_do "GET" "public?command=returnOrderBook&currencyPair=BTC_ETH&A=1&depth=50"
       None false).
Proof.
  apply (upper_case_pair_sent_verbatim "BTC_ETH&A=1" "both" 50 300
           {| Unix := 0 |} {| Unix := 1 |}); reflexivity.
Defined.

(** X10 at an instance. *)
Lemma upper_casing_first_changes_nothing_witness :
  GetOrderBook (ToUpper "btc_eth") "both" 50 = GetOrderBook "btc_eth" "both" 50.
Proof.
  apply (upper_casing_first_changes_nothing "btc_eth" "both" 50 300
           {| Unix := 0 |} {| Unix := 1 |}).
  reflexivity.
Defined.

(** X11 at an instance: [GetTickers] answered with a body that does not
    decode. *)
Lemma public_results_are_the_decoders_witness :
  fst <$> run Demo.the_client 1 GetTickers (Demo.world "<html>" true Demo.closed_channel)
  = Some (∅, Some (errors_New "invalid character")).
Proof.
  erewrite (proj1 (public_results_are_the_decoders Demo.the_client 0
                     (Demo.world "<html>" true Demo.closed_channel) _
                     (list_byte_of_string "<html>"))) by reflexivity.
  reflexivity.
Defined.
End MoreInstances.
